(** * Bible plan feed worker: schedule engine, sanitizers and feed renderer

    A shallow embedding of [src/worker.ts] (the Cloudflare Workers entry
    point of tryonlinux/bible-rss-reader) together with the fragment of the
    ECMAScript runtime it calls: [parseInt], the [Date] object, string
    replacement, [encodeURIComponent] and array slicing.

    Conventions.
    - A JavaScript number that the worker manipulates is always an integer of
      small magnitude or [NaN]; it is modelled as [option Z] with [None] for
      [NaN].
    - A [Date] object is its time value, milliseconds since the epoch, or
      [None] for an invalid date.
    - Strings are Rocq strings; the request strings the worker receives come
      from [URL.pathname], which is percent-encoded ASCII.
    - Every [new Date()] evaluated while one request is served reads the same
      instant [now]; the host's local time zone adjustment is the function
      [LocalTZA] of ECMAScript. The schedule engine is studied for an
      arbitrary zone; [SanitizeDate], whose [new Date(y, m, d)] goes from
      local time to UTC and back, is studied for zones of constant offset.
    - The resource files [full.json], [ot.json], [nt.json] and
      [translations.json] are parameters of the worker. *)

From Stdlib Require Import ZArith Lia List String Ascii Bool DecimalString.
Import ListNotations.

Local Open Scope string_scope.
Local Open Scope Z_scope.

Ltac Zify.zify_post_hook ::= Z.div_mod_to_equations.

Set Warnings "-notation-for-abbreviation,-abstract-large-number".

(* ================================================================== *)
(** ** ECMAScript numbers *)

Definition number := option Z.

(** [a < b] on numbers: false as soon as one side is [NaN]. *)
Definition num_lt (a b : number) : bool :=
  match a, b with
  | Some x, Some y => x <? y
  | _, _ => false
  end.

Definition num_gt (a b : number) : bool := num_lt b a.

(** Strict inequality [a !== b]: [NaN] differs from everything. *)
Definition num_neq (a b : number) : bool :=
  match a, b with
  | Some x, Some y => negb (x =? y)
  | _, _ => true
  end.

Definition num_sub (a b : number) : number :=
  match a, b with
  | Some x, Some y => Some (x - y)
  | _, _ => None
  end.

Definition num_mul (a b : number) : number :=
  match a, b with
  | Some x, Some y => Some (x * y)
  | _, _ => None
  end.

Definition isNaN (a : number) : bool :=
  match a with None => true | Some _ => false end.

(** [Math.min(a, b)]. *)
Definition Math_min (a b : number) : number :=
  match a, b with
  | Some x, Some y => Some (Z.min x y)
  | _, _ => None
  end.

(** [Math.abs(a)]. *)
Definition Math_abs (a : number) : number := option_map Z.abs a.

(** [Math.floor(a / d)] for an integer [a] and a positive integer [d]. *)
Definition Math_floor_div (a : number) (d : Z) : number :=
  option_map (fun x => x / d) a.

(** [Math.ceil(a / b)] for integers [a] and [b], [b] not zero. *)
Definition Math_ceil_div (a b : Z) : Z := - ((- a) / b).

(* ================================================================== *)
(** ** ECMAScript time values (ECMA-262, Date objects) *)

Definition msPerDay : Z := 86400000.
Definition msPerHour : Z := 3600000.
Definition msPerMinute : Z := 60000.
Definition msPerSecond : Z := 1000.

Definition Day (t : Z) : Z := t / msPerDay.
Definition TimeWithinDay (t : Z) : Z := t mod msPerDay.

(** Days of a 400-year era are counted from March 1st, so that the leap day
    comes last; [yoe] is the year of the era, [mp] the month counted from
    March and [d] the day of the month. *)
Definition doe_of (yoe mp d : Z) : Z :=
  365 * yoe + yoe / 4 - yoe / 100 + (153 * mp + 2) / 5 + d - 1.

Definition split_doe (doe : Z) : Z * Z * Z :=
  let yoe := (doe - doe / 1460 + doe / 36524 - doe / 146096) / 365 in
  let doy := doe - (365 * yoe + yoe / 4 - yoe / 100) in
  let mp := (5 * doy + 2) / 153 in
  (yoe, mp, doy - (153 * mp + 2) / 5 + 1).

(** Day number (days since 1970-01-01) of the proleptic Gregorian date
    [y]-[m]-[d], [m] in 1..12. The formula is linear in [d], which is what
    lets [MakeDay] accept a day of the month outside the month. *)
Definition days_from_civil (y m d : Z) : Z :=
  let y' := if m <=? 2 then y - 1 else y in
  let era := y' / 400 in
  let yoe := y' mod 400 in
  let mp := (m + 9) mod 12 in
  era * 146097 + doe_of yoe mp d - 719468.

(** Year, month (1..12) and day of the month of a day number. *)
Definition civil_from_days (z : Z) : Z * Z * Z :=
  let z' := z + 719468 in
  let era := z' / 146097 in
  let doe := z' mod 146097 in
  let '(yoe, mp, d) := split_doe doe in
  let m := if mp <? 10 then mp + 3 else mp - 9 in
  let y := yoe + era * 400 in
  (if m <=? 2 then y + 1 else y, m, d).

Definition YearFromTime (t : Z) : Z :=
  let '(y, _, _) := civil_from_days (Day t) in y.

(** Month number, 0 for January. *)
Definition MonthFromTime (t : Z) : Z :=
  let '(_, m, _) := civil_from_days (Day t) in m - 1.

Definition DateFromTime (t : Z) : Z :=
  let '(_, _, d) := civil_from_days (Day t) in d.

Definition WeekDay (t : Z) : Z := (Day t + 4) mod 7.
Definition HourFromTime (t : Z) : Z := (t / msPerHour) mod 24.
Definition MinFromTime (t : Z) : Z := (t / msPerMinute) mod 60.
Definition SecFromTime (t : Z) : Z := (t / msPerSecond) mod 60.

Definition isLeapYear (y : Z) : bool :=
  ((y mod 4 =? 0) && negb (y mod 100 =? 0)) || (y mod 400 =? 0).

(** Number of days of month [m] (1..12) of year [y]. *)
Definition DaysInMonth (y m : Z) : Z :=
  if m =? 2 then (if isLeapYear y then 29 else 28)
  else if (m =? 4) || (m =? 6) || (m =? 9) || (m =? 11) then 30
  else 31.

(** [MakeDay(year, month, date)] with [month] counted from 0 and allowed to
    lie outside 0..11, and [date] allowed to lie outside the month. *)
Definition MakeDay (year month date : Z) : Z :=
  days_from_civil (year + month / 12) (month mod 12 + 1) 1 + date - 1.

Definition MakeTime (h m s ms : Z) : Z :=
  h * msPerHour + m * msPerMinute + s * msPerSecond + ms.

Definition MakeDate (day time : Z) : Z := day * msPerDay + time.

Definition TimeClip (t : Z) : option Z :=
  if Z.abs t <=? 8640000000000000 then Some t else None.

(** The host's local time zone adjustment [LocalTZA(t, isUTC)]. *)
Definition TimeZone := Z -> bool -> Z.

Definition LocalTime (tz : TimeZone) (t : Z) : Z := t + tz t true.
Definition UTC (tz : TimeZone) (t : Z) : Z := t - tz t false.

(** A zone whose offset from UTC never changes (no daylight saving). *)
Definition fixedTZ (offset : Z) : TimeZone := fun _ _ => offset.

(** Checks [f] on the [n] consecutive integers from [z] on. *)
Fixpoint all_from (n : nat) (z : Z) (f : Z -> bool) : bool :=
  match n with
  | O => true
  | S k => f z && all_from k (z + 1) f
  end.

Definition split_doe_check (doe : Z) : bool :=
  let '(y, m, d) := split_doe doe in
  (0 <=? y) && (y <? 400) && (0 <=? m) && (m <? 12) && (1 <=? d) && (d <=? 31)
  && (doe_of y m d =? doe).

(** Calendar month (1..12) of a month counted from March. *)
Definition mp_month (mp : Z) : Z := if mp <? 10 then mp + 3 else mp - 9.

Definition dim_mp (yoe mp : Z) : Z :=
  DaysInMonth (if mp <? 10 then yoe else yoe + 1) (mp_month mp).

Definition doe_of_check (yoe mp d : Z) : bool :=
  let doe := doe_of yoe mp d in
  let '(yoe2, mp2, d2) := split_doe (doe mod 146097) in
  (0 <=? doe) && (doe <? 2 * 146097) &&
  (if d <=? dim_mp yoe mp
   then (doe <? 146097) && (yoe2 =? yoe) && (mp2 =? mp) && (d2 =? d)
   else negb (mp2 =? mp)).

(* ================================================================== *)
(** ** ECMAScript strings *)

Definition charCode (c : ascii) : Z := Z.of_N (N_of_ascii c).
Definition chr (n : Z) : ascii := ascii_of_N (Z.to_N n).
Definition str1 (c : ascii) : string := String c EmptyString.

(** The characters of the markup that cannot be written inside a literal. *)
Definition dq : string := str1 (chr 34).
Definition nl : string := str1 (chr 10).

Definition strlen (s : string) : Z := Z.of_nat (String.length s).

(** [s.substring(a, b)] for constant indices [a <= b]. *)
Definition js_substring (a b : nat) (s : string) : string :=
  String.substring a (b - a) s.

Definition upperChar (c : ascii) : ascii :=
  let n := charCode c in
  if (97 <=? n) && (n <=? 122) then chr (n - 32) else c.

(** [s.toUpperCase()] on ASCII text. *)
Fixpoint toUpperCase (s : string) : string :=
  match s with
  | EmptyString => EmptyString
  | String c r => String (upperChar c) (toUpperCase r)
  end.

(** [s.replace(/c/g, r)] for a one-character pattern [c]. *)
Fixpoint replaceAll (c : ascii) (r : string) (s : string) : string :=
  match s with
  | EmptyString => EmptyString
  | String a rest =>
      (if Ascii.eqb a c then r else str1 a) ++ replaceAll c r rest
  end.

Fixpoint concat_strings (l : list string) : string :=
  match l with
  | nil => EmptyString
  | cons x r => x ++ concat_strings r
  end.

(** The white space that [parseInt] skips ([StrWhiteSpaceChar], code units
    below 256). *)
Definition isStrWhiteSpaceChar (c : ascii) : bool :=
  let n := charCode c in
  (n =? 9) || (n =? 10) || (n =? 11) || (n =? 12) || (n =? 13) || (n =? 32)
  || (n =? 160).

Fixpoint trimStart (s : string) : string :=
  match s with
  | EmptyString => EmptyString
  | String c r => if isStrWhiteSpaceChar c then trimStart r else s
  end.

(** Value of a character as a digit in a radix up to 36. *)
Definition digitValue (c : ascii) : option Z :=
  let n := charCode c in
  if (48 <=? n) && (n <=? 57) then Some (n - 48)
  else if (97 <=? n) && (n <=? 122) then Some (n - 87)
  else if (65 <=? n) && (n <=? 90) then Some (n - 55)
  else None.

(** Value of the longest prefix of radix-[R] digits; [acc] is [None] until
    a digit has been read. *)
Fixpoint parseDigits (R : Z) (s : string) (acc : option Z) : option Z :=
  match s with
  | EmptyString => acc
  | String c r =>
      match digitValue c with
      | Some v =>
          if v <? R
          then parseDigits R r (Some (match acc with Some a => a * R + v | None => v end))
          else acc
      | None => acc
      end
  end.

Definition stripSign (s : string) : Z * string :=
  match s with
  | String c r =>
      if Ascii.eqb c "-" then (-1, r)
      else if Ascii.eqb c "+" then (1, r)
      else (1, s)
  | EmptyString => (1, s)
  end.

Definition stripHexPrefix (s : string) : option string :=
  match s with
  | String a (String b r) =>
      if Ascii.eqb a "0" && (Ascii.eqb b "x" || Ascii.eqb b "X") then Some r else None
  | _ => None
  end.

(** [parseInt(s, radix)]; [radix = 0] stands for an absent radix. *)
Definition parseInt (s : string) (radix : Z) : number :=
  let '(sign, S1) := stripSign (trimStart s) in
  if (radix =? 0) || (radix =? 16) then
    match stripHexPrefix S1 with
    | Some S2 => option_map (Z.mul sign) (parseDigits 16 S2 None)
    | None =>
        option_map (Z.mul sign) (parseDigits (if radix =? 0 then 10 else 16) S1 None)
    end
  else if (radix <? 2) || (36 <? radix) then None
  else option_map (Z.mul sign) (parseDigits radix S1 None).

(** [String(n)] for an integer. *)
Definition intToString (z : Z) : string :=
  DecimalString.NilZero.string_of_int (Z.to_int z).

(** [String(n)] for a number. *)
Definition numberToString (n : number) : string :=
  match n with
  | Some z => intToString z
  | None => "NaN"
  end.

Fixpoint repeatChar (n : nat) (c : ascii) : string :=
  match n with
  | O => EmptyString
  | S k => String c (repeatChar k c)
  end.

(** [s.padStart(n, c)] for a one-character filler. *)
Definition padStart (n : nat) (c : ascii) (s : string) : string :=
  repeatChar (n - String.length s) c ++ s.

Definition hexDigit (n : Z) : ascii :=
  if n <? 10 then chr (48 + n) else chr (55 + n).

Definition percentByte (b : Z) : string :=
  String "%" (String (hexDigit (b / 16)) (String (hexDigit (b mod 16)) EmptyString)).

Definition isUnreservedURI (c : ascii) : bool :=
  let n := charCode c in
  ((48 <=? n) && (n <=? 57)) || ((65 <=? n) && (n <=? 90))
  || ((97 <=? n) && (n <=? 122))
  || (n =? 45) || (n =? 95) || (n =? 46) || (n =? 33) || (n =? 126)
  || (n =? 42) || (n =? 39) || (n =? 40) || (n =? 41).

Definition encodeURIChar (c : ascii) : string :=
  let n := charCode c in
  if isUnreservedURI c then str1 c
  else if n <? 128 then percentByte n
  else percentByte (192 + n / 64) ++ percentByte (128 + n mod 64).

(** [encodeURIComponent(s)]: every character outside the unreserved set is
    replaced by the percent-encoding of its UTF-8 bytes. *)
Fixpoint encodeURIComponent (s : string) : string :=
  match s with
  | EmptyString => EmptyString
  | String c r => encodeURIChar c ++ encodeURIComponent r
  end.

(** [s.split('/')]. *)
Fixpoint splitSlash (s : string) (cur : string) : list string :=
  match s with
  | EmptyString => cons cur nil
  | String c r =>
      if Ascii.eqb c "/" then cons cur (splitSlash r EmptyString)
      else splitSlash r (cur ++ str1 c)
  end.

Definition isEmptyString (s : string) : bool :=
  match s with EmptyString => true | _ => false end.

(* ================================================================== *)
(** ** ECMAScript arrays *)

(** [l.slice(0, e)]: a negative [e] counts from the end, [NaN] is 0. *)
Definition slice0 {A : Type} (l : list A) (e : number) : list A :=
  let len := Z.of_nat (List.length l) in
  let k := match e with
           | None => 0
           | Some e => if e <? 0 then Z.max (len + e) 0 else Z.min e len
           end in
  firstn (Z.to_nat k) l.

(** [l.map((x, index) => f(x, index))], indices counted from [i]. *)
Fixpoint mapi_from {A B : Type} (f : A -> Z -> B) (i : Z) (l : list A) : list B :=
  match l with
  | nil => nil
  | cons x r => cons (f x i) (mapi_from f (i + 1) r)
  end.

Definition mapi {A B : Type} (f : A -> Z -> B) (l : list A) : list B :=
  mapi_from f 0 l.

(* ================================================================== *)
(** ** ECMAScript Date objects *)

Definition Date := option Z.

(** Two-digit years of the [Date] constructor and of [Date.UTC]. *)
Definition fullYear (y : Z) : Z :=
  if (0 <=? y) && (y <=? 99) then 1900 + y else y.

(** [Date.UTC(year, month, day)]. *)
Definition Date_UTC (year month day : number) : number :=
  match year, month, day with
  | Some y, Some m, Some d => TimeClip (MakeDate (MakeDay (fullYear y) m d) 0)
  | _, _, _ => None
  end.

(** [new Date(year, month, day)]: local midnight of that calendar date. *)
Definition newDate_ymd (tz : TimeZone) (year month day : number) : Date :=
  match year, month, day with
  | Some y, Some m, Some d =>
      TimeClip (UTC tz (MakeDate (MakeDay (fullYear y) m d) (MakeTime 0 0 0 0)))
  | _, _, _ => None
  end.

(** [new Date(value)]. *)
Definition newDate_value (v : number) : Date :=
  match v with
  | Some t => TimeClip t
  | None => None
  end.

Definition getFullYear (tz : TimeZone) (d : Date) : number :=
  option_map (fun t => YearFromTime (LocalTime tz t)) d.
Definition getMonth (tz : TimeZone) (d : Date) : number :=
  option_map (fun t => MonthFromTime (LocalTime tz t)) d.
Definition getDate (tz : TimeZone) (d : Date) : number :=
  option_map (fun t => DateFromTime (LocalTime tz t)) d.

Definition getUTCFullYear (d : Date) : number := option_map YearFromTime d.
Definition getUTCMonth (d : Date) : number := option_map MonthFromTime d.
Definition getUTCDate (d : Date) : number := option_map DateFromTime d.

(** [d.setDate(dt)]: the new time value, which is also what the call
    returns. *)
Definition setDate (tz : TimeZone) (d : Date) (dt : number) : number :=
  match d, dt with
  | Some t, Some dt =>
      let lt := LocalTime tz t in
      let newDate :=
        MakeDate (MakeDay (YearFromTime lt) (MonthFromTime lt) dt) (TimeWithinDay lt) in
      TimeClip (UTC tz newDate)
  | _, _ => None
  end.

Definition DayName (w : Z) : string :=
  nth (Z.to_nat w) ["Sun"; "Mon"; "Tue"; "Wed"; "Thu"; "Fri"; "Sat"]%list "Sun".

Definition MonthName (m : Z) : string :=
  nth (Z.to_nat m)
    ["Jan"; "Feb"; "Mar"; "Apr"; "May"; "Jun";
     "Jul"; "Aug"; "Sep"; "Oct"; "Nov"; "Dec"]%list "Jan".

Definition pad2 (n : Z) : string := padStart 2 "0" (intToString n).
Definition pad4 (n : Z) : string := padStart 4 "0" (intToString n).

(** [d.toUTCString()]. *)
Definition toUTCString (d : Date) : string :=
  match d with
  | None => "Invalid Date"
  | Some tv =>
      let yv := YearFromTime tv in
      DayName (WeekDay tv) ++ ", " ++ pad2 (DateFromTime tv) ++ " "
      ++ MonthName (MonthFromTime tv) ++ " "
      ++ (if 0 <=? yv then EmptyString else "-") ++ pad4 (Z.abs yv) ++ " "
      ++ pad2 (HourFromTime tv) ++ ":" ++ pad2 (MinFromTime tv) ++ ":"
      ++ pad2 (SecFromTime tv) ++ " GMT"
  end.

(* ================================================================== *)
(** ** The worker ([src/worker.ts]) *)

Definition bibleGatewaySlug : string :=
  "https://www.biblegateway.com/passage/?search=".

Record BookChapter := { Book : string; Chapter : Z }.

Record RSSItem := {
  title : string;
  description : string;
  url : string;
  author : string;
  date : Date
}.

(** An entry of [resources/translations.json]. *)
Record Translation := { Code : string; Description : string }.

(** The [feedMetadata] argument of [generateRSSXML]. *)
Record FeedMetadata := {
  meta_title : string;
  meta_description : string;
  feedUrl : string;
  siteUrl : string;
  imageUrl : string;
  managingEditor : string;
  webMaster : string;
  copyright : string;
  language : string;
  pubDate : Date;
  ttl : Z
}.

Definition escapeXML (str : string) : string :=
  replaceAll (chr 39) "&apos;"
    (replaceAll (chr 34) "&quot;"
       (replaceAll ">" "&gt;"
          (replaceAll "<" "&lt;"
             (replaceAll "&" "&amp;" str)))).

Definition formatRSSDate (d : Date) : string := toUTCString d.

Definition itemXML (item : RSSItem) : string :=
  nl ++ "    <item>" ++ nl
  ++ "      <title>" ++ escapeXML (title item) ++ "</title>" ++ nl
  ++ "      <description>" ++ escapeXML (description item) ++ "</description>" ++ nl
  ++ "      <link>" ++ escapeXML (url item) ++ "</link>" ++ nl
  ++ "      <guid isPermaLink=" ++ dq ++ "true" ++ dq ++ ">"
  ++ escapeXML (url item) ++ "</guid>" ++ nl
  ++ "      <pubDate>" ++ formatRSSDate (date item) ++ "</pubDate>" ++ nl
  ++ "      <author>" ++ escapeXML (author item) ++ "</author>" ++ nl
  ++ "    </item>".

Definition generateRSSXML (feedMetadata : FeedMetadata) (items : list RSSItem) : string :=
  let itemsXML := concat_strings (map itemXML items) in
  "<?xml version=" ++ dq ++ "1.0" ++ dq ++ " encoding=" ++ dq ++ "UTF-8" ++ dq ++ "?>" ++ nl
  ++ "<rss version=" ++ dq ++ "2.0" ++ dq ++ " xmlns:atom=" ++ dq
  ++ "http://www.w3.org/2005/Atom" ++ dq ++ ">" ++ nl
  ++ "  <channel>" ++ nl
  ++ "    <title>" ++ escapeXML (meta_title feedMetadata) ++ "</title>" ++ nl
  ++ "    <description>" ++ escapeXML (meta_description feedMetadata) ++ "</description>" ++ nl
  ++ "    <link>" ++ escapeXML (siteUrl feedMetadata) ++ "</link>" ++ nl
  ++ "    <atom:link href=" ++ dq ++ escapeXML (feedUrl feedMetadata) ++ dq
  ++ " rel=" ++ dq ++ "self" ++ dq ++ " type=" ++ dq ++ "application/rss+xml" ++ dq ++ "/>" ++ nl
  ++ "    <language>" ++ escapeXML (language feedMetadata) ++ "</language>" ++ nl
  ++ "    <managingEditor>" ++ escapeXML (managingEditor feedMetadata) ++ "</managingEditor>" ++ nl
  ++ "    <webMaster>" ++ escapeXML (webMaster feedMetadata) ++ "</webMaster>" ++ nl
  ++ "    <copyright>" ++ escapeXML (copyright feedMetadata) ++ "</copyright>" ++ nl
  ++ "    <pubDate>" ++ formatRSSDate (pubDate feedMetadata) ++ "</pubDate>" ++ nl
  ++ "    <ttl>" ++ intToString (ttl feedMetadata) ++ "</ttl>" ++ nl
  ++ "    <image>" ++ nl
  ++ "      <url>" ++ escapeXML (imageUrl feedMetadata) ++ "</url>" ++ nl
  ++ "      <title>" ++ escapeXML (meta_title feedMetadata) ++ "</title>" ++ nl
  ++ "      <link>" ++ escapeXML (siteUrl feedMetadata) ++ "</link>" ++ nl
  ++ "    </image>" ++ itemsXML ++ nl
  ++ "  </channel>" ++ nl
  ++ "</rss>".

Definition SanitizePlan (plan : string) : string :=
  if existsb (String.eqb plan) ["nt"; "ot"; "full"]%list then plan else "full".

(** [bookListMap[plan]]: an own property holding a catalog, a property
    inherited from [Object.prototype] (a function or an object, never an
    array), or [undefined]. *)
Inductive MapLookup :=
| OwnCatalog (l : list BookChapter)
| InheritedProperty
| Undefined.

Definition objectPrototypeKeys : list string :=
  ["constructor"; "hasOwnProperty"; "isPrototypeOf"; "propertyIsEnumerable";
   "toLocaleString"; "toString"; "valueOf"; "__proto__";
   "__defineGetter__"; "__defineSetter__"; "__lookupGetter__";
   "__lookupSetter__"]%list.

Definition BuildBibleGatewayURL (book : string) (chapter : Z) (translation : string) : string :=
  bibleGatewaySlug ++ encodeURIComponent book ++ "%20" ++ intToString chapter
  ++ "&version=" ++ translation.

(** The [Response] built by the handler, or the hand-over to the static
    assets. *)
Inductive FetchResult :=
| RssResponse (body : string) (headers : list (string * string))
| StaticAsset
| Uncaught.

(** The route pattern
    [^\/rssbible\/([^\/]+)\/([^\/]+)\/([^\/]+)\/([^\/]+)\/feed\.rss$]:
    the four captured groups. *)
Definition rssMatch (pathname : string) : option (string * string * string * string) :=
  match splitSlash pathname EmptyString with
  | [e; r; plan; translation; startDate; chapters; f]%list =>
      if isEmptyString e && String.eqb r "rssbible" && String.eqb f "feed.rss"
         && negb (isEmptyString plan) && negb (isEmptyString translation)
         && negb (isEmptyString startDate) && negb (isEmptyString chapters)
      then Some (plan, translation, startDate, chapters)
      else None
  | _ => None
  end.

Section Worker.

(** The host: its time zone and the instant read by [new Date()]. *)
Variable tz : TimeZone.
Variable now : Z.

(** The static resources [full.json], [ot.json], [nt.json] and
    [translations.json]. *)
Variables fullBookList otBookList ntBookList : list BookChapter.
Variable translationsJSON : list Translation.

Definition newDate : Date := Some now.

Definition SanitizeDate (dateString : string) : Date :=
  if negb (strlen dateString =? 8) then newDate
  else
    let year := parseInt (js_substring 0 4 dateString) 0 in
    let month := num_sub (parseInt (js_substring 4 6 dateString) 0) (Some 1) in
    let day := parseInt (js_substring 6 8 dateString) 0 in
    if num_lt year (Some 1900) || num_gt year (Some 2100)
       || num_lt month (Some 0) || num_gt month (Some 11)
       || num_lt day (Some 1) || num_gt day (Some 31)
    then newDate
    else
      let date := newDate_ymd tz year month day in
      if num_neq (getMonth tz date) month then newDate
      else date.

Definition SanitizeTranslation (translation : string) : string :=
  match find (fun item => String.eqb (Code item) (toUpperCase translation)) translationsJSON with
  | Some found => Code found
  | None => "ESV"
  end.

Definition SanitizeChapters (chapters : string) : Z :=
  if strlen chapters >? 2 then 1
  else
    let result := parseInt chapters 10 in
    if isNaN result || num_lt result (Some 1) || num_gt result (Some 99) then 1
    else match result with Some r => r | None => 1 end.

Definition formatDateToyyyyMMdd (d : Date) : string :=
  let yyyy := getFullYear tz d in
  let MM := padStart 2 "0" (numberToString (option_map (Z.add 1) (getMonth tz d))) in
  let dd := padStart 2 "0" (numberToString (getDate tz d)) in
  numberToString yyyy ++ MM ++ dd.

Definition getDaysBetween (d : Date) : number :=
  let nowUTC := Date_UTC (getUTCFullYear newDate) (getUTCMonth newDate) (getUTCDate newDate) in
  let compareUTC := Date_UTC (getFullYear tz d) (getMonth tz d) (getDate tz d) in
  let diffInMilliSeconds := Math_abs (num_sub nowUTC compareUTC) in
  Math_floor_div diffInMilliSeconds (1000 * 60 * 60 * 24).

Definition bookListMap (plan : string) : MapLookup :=
  if String.eqb plan "full" then OwnCatalog fullBookList
  else if String.eqb plan "ot" then OwnCatalog otBookList
  else if String.eqb plan "nt" then OwnCatalog ntBookList
  else if existsb (String.eqb plan) objectPrototypeKeys then InheritedProperty
  else Undefined.

Definition processChapter (plan translation : string) (daysBetween : number)
    (numberOfChapters : Z) (chapter : BookChapter) (index : Z) : RSSItem :=
  {| title := Book chapter ++ " " ++ intToString (Chapter chapter);
     description :=
       "Day " ++ intToString (Math_ceil_div (index + 1) numberOfChapters)
       ++ " of " ++ toUpperCase plan ++ " plan in " ++ toUpperCase translation;
     url := BuildBibleGatewayURL (Book chapter) (Chapter chapter) translation;
     author := "Bible Gateway";
     date :=
       newDate_value
         (setDate tz newDate
            (num_sub (num_sub (getDate tz newDate) (Some 1))
               (num_sub daysBetween
                  (Some (Math_ceil_div (index + 1) numberOfChapters))))) |}.

(** [None] is the [TypeError] raised when [bookList.slice] is not a
    function. *)
Definition BuildRSSFeedItems (plan translation : string) (startDate : Date)
    (numberOfChapters : Z) : option (list RSSItem) :=
  let daysBetween := getDaysBetween startDate in
  let chaptersToGet := num_mul daysBetween (Some numberOfChapters) in
  let chaptersToGet := Math_min chaptersToGet (Some 1189) in
  match bookListMap plan with
  | InheritedProperty => None
  | lookup =>
      let bookList :=
        match lookup with OwnCatalog l => l | _ => fullBookList end in
      Some (mapi (processChapter plan translation daysBetween numberOfChapters)
              (slice0 bookList chaptersToGet))
  end.

(** The catalog [bookListMap[plan] || fullBookList] when it is an
    array. *)
Definition selectedCatalog (plan : string) : list BookChapter :=
  match bookListMap plan with
  | OwnCatalog l => l
  | _ => fullBookList
  end.

(** The [feedMetadata] object the handler builds from the sanitized
    values. *)
Definition handlerFeedMetadata (sanitizedPlan sanitizedTranslation : string)
    (sanitizedStartDate : Date) (sanitizedChapters : Z) : FeedMetadata :=
  {| meta_title := "Bible Plan Feed";
     meta_description := "Go to www.bibleplanfeed.com for more information.";
     feedUrl :=
       "https://www.bibleplanfeed.com/rssbible/" ++ sanitizedPlan ++ "/"
       ++ formatDateToyyyyMMdd sanitizedStartDate ++ "/" ++ sanitizedTranslation
       ++ "/" ++ intToString sanitizedChapters ++ "/feed.rss";
     siteUrl := "https://www.bibleplanfeed.com/";
     imageUrl := "https://www.bibleplanfeed.com/icon.png";
     managingEditor := "github.com/tryonlinux - Not affiliated with Bible Gateway";
     webMaster := "github.com/tryonlinux";
     copyright := "github.com/tryonlinux - Not affiliated with Bible Gateway";
     language := "en";
     pubDate := newDate;
     ttl := 60 |}.

Definition responseHeaders : list (string * string) :=
  [("Content-Type", "application/rss+xml");
   ("Cache-Control", "public, max-age=3600");
   ("X-Content-Type-Options", "nosniff");
   ("X-Frame-Options", "DENY")]%list.

(** The [fetch] handler on the path of the request URL. *)
Definition fetch (pathname : string) : FetchResult :=
  match rssMatch pathname with
  | Some (plan, translation, startDate, chapters) =>
      let sanitizedPlan := SanitizePlan plan in
      let sanitizedStartDate := SanitizeDate startDate in
      let sanitizedChapters := SanitizeChapters chapters in
      let sanitizedTranslation := SanitizeTranslation translation in
      let feedMetadata :=
        handlerFeedMetadata sanitizedPlan sanitizedTranslation
          sanitizedStartDate sanitizedChapters in
      match BuildRSSFeedItems sanitizedPlan sanitizedTranslation
              sanitizedStartDate sanitizedChapters with
      | Some items => RssResponse (generateRSSXML feedMetadata items) responseHeaders
      | None => Uncaught
      end
  | None => StaticAsset
  end.

End Worker.

(** Instants whose calendar year has four digits and is not one of the
    two-digit years that [Date.UTC] moves into the twentieth century:
    0100-01-01T00:00:00Z up to 9999-12-31T23:59:59.999Z. *)
Definition fourDigitYear (t : Z) : Prop :=
  -59011459200000 <= t <= 253402300799999.

(* ================================================================== *)
(** ** RFC 822 date-times

    The profile of the [date-time] production of RFC 822 (with the
    four-digit year of RFC 1123, as RSS 2.0 asks for) that a feed reader
    expects: [day "," SP date SP time], as in
    [Tue, 03 Nov 2026 00:00:00 GMT]. *)

Definition isDigit (c : ascii) : bool :=
  let n := charCode c in (48 <=? n) && (n <=? 57).

(** Recognizers consume a prefix of the text and answer what is left. *)
Definition recognizer := string -> option string.

Fixpoint eatLiteral (lit : string) : recognizer :=
  fun s =>
    match lit with
    | EmptyString => Some s
    | String c l =>
        match s with
        | String a r => if Ascii.eqb a c then eatLiteral l r else None
        | EmptyString => None
        end
    end.

Fixpoint eatOneOf (names : list string) : recognizer :=
  fun s =>
    match names with
    | nil => None
    | cons n rest =>
        match eatLiteral n s with
        | Some r => Some r
        | None => eatOneOf rest s
        end
    end.

Definition eatDigit : recognizer :=
  fun s =>
    match s with
    | String a r => if isDigit a then Some r else None
    | EmptyString => None
    end.

Definition seqR (p q : recognizer) : recognizer :=
  fun s => match p s with Some r => q r | None => None end.

Infix ">>" := seqR (at level 61, right associativity).

Definition dayNames : list string :=
  ["Mon"; "Tue"; "Wed"; "Thu"; "Fri"; "Sat"; "Sun"]%list.

Definition monthNames : list string :=
  ["Jan"; "Feb"; "Mar"; "Apr"; "May"; "Jun";
   "Jul"; "Aug"; "Sep"; "Oct"; "Nov"; "Dec"]%list.

Definition rfc822DateTime : recognizer :=
  eatOneOf dayNames >> eatLiteral ", "
  >> eatDigit >> eatDigit >> eatLiteral " "
  >> eatOneOf monthNames >> eatLiteral " "
  >> eatDigit >> eatDigit >> eatDigit >> eatDigit >> eatLiteral " "
  >> eatDigit >> eatDigit >> eatLiteral ":"
  >> eatDigit >> eatDigit >> eatLiteral ":"
  >> eatDigit >> eatDigit >> eatLiteral " GMT".

Definition isRFC822DateTime (s : string) : bool :=
  match rfc822DateTime s with
  | Some EmptyString => true
  | _ => false
  end.

Definition twoDigits (s : string) : bool :=
  match s with
  | String a (String b EmptyString) => isDigit a && isDigit b
  | _ => false
  end.

Definition fourDigits (s : string) : bool :=
  match s with
  | String a (String b (String c (String d EmptyString))) =>
      isDigit a && isDigit b && isDigit c && isDigit d
  | _ => false
  end.

(** [sub] occurs in [s]. *)
Definition contains (sub s : string) : Prop :=
  exists pre post, s = pre ++ sub ++ post.

(* ================================================================== *)
(** ** Reserved markup characters *)

Definition amp : ascii := "&".
Definition lt : ascii := "<".
Definition gt : ascii := ">".
Definition quot : ascii := chr 34.
Definition apos : ascii := chr 39.

Definition isReserved (c : ascii) : bool :=
  Ascii.eqb c amp || Ascii.eqb c lt || Ascii.eqb c gt || Ascii.eqb c quot
  || Ascii.eqb c apos.

(** The entity that stands for a reserved character; any other character
    stands for itself. *)
Definition escapeChar (c : ascii) : string :=
  if Ascii.eqb c amp then "&amp;"
  else if Ascii.eqb c lt then "&lt;"
  else if Ascii.eqb c gt then "&gt;"
  else if Ascii.eqb c quot then "&quot;"
  else if Ascii.eqb c apos then "&apos;"
  else str1 c.

Fixpoint count_char (c : ascii) (s : string) : nat :=
  match s with
  | EmptyString => O
  | String a r => ((if Ascii.eqb a c then 1 else 0) + count_char c r)%nat
  end.

Fixpoint noReserved (s : string) : bool :=
  match s with
  | EmptyString => true
  | String a r => negb (isReserved a) && noReserved r
  end.

Definition entityNames : list string :=
  ["amp;"; "lt;"; "gt;"; "quot;"; "apos;"]%list.

Definition startsEntity (s : string) : bool :=
  match eatOneOf entityNames s with
  | Some _ => true
  | None => false
  end.

(** Every ampersand of the text opens one of the five entities. *)
Fixpoint ampersandsEscaped (s : string) : bool :=
  match s with
  | EmptyString => true
  | String a r =>
      (if Ascii.eqb a amp then startsEntity r else true) && ampersandsEscaped r
  end.

(* ================================================================== *)
(** ** The date strings that the specification accepts *)

(** The calendar date written by a string, following the specification of
    [SanitizeDate]: eight characters, a year in 1900..2100, a month in
    1..12, a day in 1..31, and a day that exists in that month (no rolling
    over into the next month). *)
Definition acceptedDate (dateString : string) : option (Z * Z * Z) :=
  if strlen dateString =? 8 then
    match parseInt (js_substring 0 4 dateString) 0,
          parseInt (js_substring 4 6 dateString) 0,
          parseInt (js_substring 6 8 dateString) 0 with
    | Some y, Some m, Some d =>
        if (1900 <=? y) && (y <=? 2100) && (1 <=? m) && (m <=? 12)
           && (1 <=? d) && (d <=? 31) && (d <=? DaysInMonth y m)
        then Some (y, m, d)
        else None
    | _, _, _ => None
    end
  else None.

(* ================================================================== *)
(** ** Sample host and resources for the examples

    The resource files are not part of the sources at hand; the examples
    run the worker on short excerpts in the documented format. *)

Definition sampleOT : list BookChapter :=
  [ {| Book := "Genesis"; Chapter := 1 |}; {| Book := "Genesis"; Chapter := 2 |};
    {| Book := "Genesis"; Chapter := 3 |}; {| Book := "1 Samuel"; Chapter := 1 |} ]%list.

Definition sampleNT : list BookChapter :=
  [ {| Book := "Matthew"; Chapter := 1 |}; {| Book := "Matthew"; Chapter := 2 |} ]%list.

Definition sampleFull : list BookChapter := (sampleOT ++ sampleNT)%list.

Definition sampleTranslations : list Translation :=
  [ {| Code := "ESV"; Description := "English Standard Version" |};
    {| Code := "NIV"; Description := "New International Version" |};
    {| Code := "KJV"; Description := "King James Version" |} ]%list.

(** 2026-01-02T23:54:56Z. *)
Definition sampleNow : Z := 1767398096000.

(** A zone that is one hour east of Greenwich until 2026-01-02T00:00 and on
    Greenwich time from then on, as at the end of a daylight saving
    period. *)
Definition sampleSummerZone : TimeZone :=
  fun t _ => if t <? 1767312000000 then 3600000 else 0.

(** 2026-01-01T00:00:00Z and 2026-01-04T00:00:00Z. *)
Definition sampleStart : Z := 1767225600000.
Definition sampleFutureStart : Z := 1767484800000.

(* ================================================================== *)
(** ** Paths *)

Fixpoint noSlash (s : string) : bool :=
  match s with
  | EmptyString => true
  | String c r => negb (Ascii.eqb c "/") && noSlash r
  end.

(** [l.join('/')]. *)
Fixpoint joinSlash (l : list string) : string :=
  match l with
  | nil => EmptyString
  | cons x nil => x
  | cons x r => x ++ "/" ++ joinSlash r
  end.

(** The path of the feed of four segments. *)
Definition feedPath (plan translation startDate chapters : string) : string :=
  "/rssbible/" ++ plan ++ "/" ++ translation ++ "/" ++ startDate ++ "/"
  ++ chapters ++ "/feed.rss".

(* ================================================================== *)
(** ** Canonical segments *)

(** The eight characters [formatDateToyyyyMMdd] writes for a calendar date
    of a four-digit year. *)
Definition canonicalDate (y m d : Z) : string :=
  intToString y ++ pad2 m ++ pad2 d.

Definition canonicalDate_check (y m d : Z) : bool :=
  let s := canonicalDate y m d in
  (strlen s =? 8)
  && match parseInt (js_substring 0 4 s) 0,
           parseInt (js_substring 4 6 s) 0,
           parseInt (js_substring 6 8 s) 0 with
     | Some y', Some m', Some d' => (y' =? y) && (m' =? m) && (d' =? d)
     | _, _, _ => false
     end.

(** The title [processChapter] gives to a catalog entry. *)
Definition chapterTitle (chapter : BookChapter) : string :=
  Book chapter ++ " " ++ intToString (Chapter chapter).

(* ================================================================== *)
(** ** Readers of the feed *)

(** [text.match(pat)] for a global pattern that is a literal text: the
    number of matches, found from left to right, each search resuming after
    the previous match. [skip] counts the characters of the current match
    still to be passed. *)
Fixpoint countMatches (pat : string) (skip : nat) (s : string) : nat :=
  match s with
  | EmptyString => O
  | String c r =>
      match skip with
      | S k => countMatches pat k r
      | O =>
          match eatLiteral pat s with
          | Some _ => S (countMatches pat (String.length pat - 1) r)
          | None => countMatches pat 0 r
          end
      end
  end.

(** The item counter of the test suite ([rss-feed.test.ts]) on the text of
    a response: [text.match(/<item>/g)] and its length, 0 without match. *)
Definition getRSSItemCount (text : string) : nat :=
  countMatches "<item>" 0 text.

(** What a reader of the feed does with the five entities: each one is read
    as its character, every other character as itself. *)
Fixpoint unescapeXML_from (skip : nat) (s : string) : string :=
  match s with
  | EmptyString => EmptyString
  | String c r =>
      match skip with
      | S k => unescapeXML_from k r
      | O =>
          if Ascii.eqb c amp then
            match eatLiteral "amp;" r, eatLiteral "lt;" r, eatLiteral "gt;" r,
                  eatLiteral "quot;" r, eatLiteral "apos;" r with
            | Some _, _, _, _, _ => String amp (unescapeXML_from 4 r)
            | _, Some _, _, _, _ => String lt (unescapeXML_from 3 r)
            | _, _, Some _, _, _ => String gt (unescapeXML_from 3 r)
            | _, _, _, Some _, _ => String quot (unescapeXML_from 5 r)
            | _, _, _, _, Some _ => String apos (unescapeXML_from 5 r)
            | _, _, _, _, _ => String c (unescapeXML_from 0 r)
            end
          else String c (unescapeXML_from 0 r)
      end
  end.

Definition unescapeXML (s : string) : string := unescapeXML_from 0 s.

Fixpoint allChars (p : ascii -> bool) (s : string) : bool :=
  match s with
  | EmptyString => true
  | String c r => p c && allChars p r
  end.

(** The characters [encodeURIComponent] writes: the unreserved ones and the
    percent sign of an escape. *)
Definition isURISafe (c : ascii) : bool :=
  isUnreservedURI c || Ascii.eqb c "%".

(* ================================================================== *)
(** * Properties *)

Lemma all_from_spec (f : Z -> bool) (n : nat) :
  forall z, all_from n z f = true ->
  forall k, z <= k < z + Z.of_nat n -> f k = true.
Proof.
  induction n as [|n IH]; intros z H k Hk.
  - simpl in Hk. lia.
  - cbn [all_from] in H. apply andb_true_iff in H as [Hz Hrest].
    destruct (Z.eq_dec k z) as [->|Hne]; [exact Hz|].
    apply (IH (z + 1) Hrest). lia.
Qed.

Lemma split_doe_all : all_from (Z.to_nat 146097) 0 split_doe_check = true.
Proof. vm_compute. reflexivity. Qed.

Lemma split_doe_ok (doe : Z) :
  0 <= doe < 146097 ->
  exists yoe mp d,
    split_doe doe = (yoe, mp, d) /\
    0 <= yoe < 400 /\ 0 <= mp < 12 /\ 1 <= d <= 31 /\ doe_of yoe mp d = doe.
Proof.
  intros H.
  pose proof (all_from_spec _ _ _ split_doe_all doe) as Hc.
  unfold split_doe_check in Hc.
  destruct (split_doe doe) as [[yoe mp] d].
  exists yoe, mp, d. split; [reflexivity|].
  assert (Hr : 0 <= doe < 0 + Z.of_nat (Z.to_nat 146097)) by (rewrite Z2Nat.id; lia).
  specialize (Hc Hr).
  repeat (apply andb_true_iff in Hc as [Hc ?]).
  lia.
Qed.

(** Reading the calendar date of a day number and rebuilding the day number
    from it gives the day number back. *)
Lemma days_from_civil_from_days (z : Z) :
  forall y m d, civil_from_days z = (y, m, d) ->
  1 <= m <= 12 /\ 1 <= d <= 31 /\ days_from_civil y m d = z.
Proof.
  intros y m d. unfold civil_from_days.
  destruct (split_doe_ok ((z + 719468) mod 146097)) as (yoe & mp & d' & Hs & Hy & Hm & Hd & Hdoe);
    [lia|].
  rewrite Hs. intros E. injection E as Ey Em Ed. subst d'.
  assert (Hmp : (m + 9) mod 12 = mp /\ 1 <= m <= 12)
    by (destruct (Z.ltb_spec mp 10); lia).
  assert (Hy' : (if m <=? 2 then y - 1 else y) = yoe + (z + 719468) / 146097 * 400).
  { destruct (Z.ltb_spec mp 10); subst m;
      destruct (Z.leb_spec (mp + 3) 2); destruct (Z.leb_spec (mp - 9) 2); lia. }
  destruct Hmp as [Hmp Hm12].
  split; [exact Hm12|]. split; [exact Hd|].
  unfold days_from_civil. rewrite Hy', Hmp.
  replace ((yoe + (z + 719468) / 146097 * 400) / 400) with ((z + 719468) / 146097) by lia.
  replace ((yoe + (z + 719468) / 146097 * 400) mod 400) with yoe by lia.
  rewrite Hdoe. lia.
Qed.

Lemma doe_of_all :
  all_from 400 0 (fun yoe =>
    all_from 12 0 (fun mp => all_from 31 1 (doe_of_check yoe mp))) = true.
Proof. vm_compute. reflexivity. Qed.

Lemma doe_of_ok (yoe mp d : Z) :
  0 <= yoe < 400 -> 0 <= mp < 12 -> 1 <= d <= 31 ->
  doe_of_check yoe mp d = true.
Proof.
  intros Hy Hm Hd.
  pose proof (all_from_spec _ _ _ doe_of_all yoe ltac:(simpl; lia)) as H1.
  cbv beta in H1.
  pose proof (all_from_spec _ _ _ H1 mp ltac:(simpl; lia)) as H2.
  cbv beta in H2.
  exact (all_from_spec _ _ _ H2 d ltac:(simpl; lia)).
Qed.

Lemma isLeapYear_era (a k : Z) : isLeapYear (a + 400 * k) = isLeapYear a.
Proof.
  unfold isLeapYear.
  replace ((a + 400 * k) mod 4) with (a mod 4) by lia.
  replace ((a + 400 * k) mod 100) with (a mod 100) by lia.
  replace ((a + 400 * k) mod 400) with (a mod 400) by lia.
  reflexivity.
Qed.

Lemma mp_month_inj (a b : Z) :
  0 <= a < 12 -> 0 <= b < 12 -> mp_month a = mp_month b -> a = b.
Proof.
  unfold mp_month. intros Ha Hb.
  destruct (Z.ltb_spec a 10); destruct (Z.ltb_spec b 10); lia.
Qed.

(** Building the day number of a calendar date and reading the calendar
    date back: the date itself when the day exists in the month, a date of
    another month when it does not. *)
Lemma civil_from_days_from_civil (y m d : Z) :
  1 <= m <= 12 -> 1 <= d <= 31 ->
  (d <= DaysInMonth y m -> civil_from_days (days_from_civil y m d) = (y, m, d)) /\
  (DaysInMonth y m < d ->
   forall y2 m2 d2, civil_from_days (days_from_civil y m d) = (y2, m2, d2) -> m2 <> m).
Proof.
  intros Hm Hd.
  set (y' := if m <=? 2 then y - 1 else y).
  set (era := y' / 400). set (yoe := y' mod 400). set (mp := (m + 9) mod 12).
  assert (Hyoe : 0 <= yoe < 400) by (subst yoe; lia).
  assert (Hmp : 0 <= mp < 12) by (subst mp; lia).
  assert (Hmm : mp_month mp = m).
  { unfold mp_month. subst mp. destruct (Z.ltb_spec ((m + 9) mod 12) 10); lia. }
  assert (Hy : y = (if mp <? 10 then yoe else yoe + 1) + 400 * era).
  { subst yoe era y' mp.
    destruct (Z.leb_spec m 2); destruct (Z.ltb_spec ((m + 9) mod 12) 10); lia. }
  assert (Hdim : dim_mp yoe mp = DaysInMonth y m).
  { unfold dim_mp, DaysInMonth. rewrite Hmm.
    rewrite Hy at 1. rewrite isLeapYear_era. reflexivity. }
  pose proof (doe_of_ok yoe mp d Hyoe Hmp Hd) as Hc.
  unfold doe_of_check in Hc. rewrite Hdim in Hc.
  assert (Hz : days_from_civil y m d + 719468 = era * 146097 + doe_of yoe mp d)
    by (unfold days_from_civil; fold y' era yoe mp; lia).
  unfold civil_from_days. rewrite Hz.
  set (doe := doe_of yoe mp d) in *.
  replace ((era * 146097 + doe) mod 146097) with (doe mod 146097) by lia.
  destruct (split_doe_ok (doe mod 146097)) as (yoe2 & mp2 & d2' & Hs & Hy2 & Hm2 & Hd2 & _);
    [lia|].
  rewrite Hs in *. fold (mp_month mp2).
  apply andb_true_iff in Hc as [Hc Hc3].
  apply andb_true_iff in Hc as [Hc1 Hc2].
  split.
  - intros Hle. destruct (Z.leb_spec d (DaysInMonth y m)); [|lia].
    repeat (apply andb_true_iff in Hc3 as [Hc3 ?]).
    assert (yoe2 = yoe) by lia. assert (mp2 = mp) by lia. assert (d2' = d) by lia.
    subst yoe2 mp2 d2'.
    replace ((era * 146097 + doe) / 146097) with era by lia.
    rewrite Hmm. f_equal. f_equal.
    rewrite Hy. subst mp.
    destruct (Z.leb_spec m 2); destruct (Z.ltb_spec ((m + 9) mod 12) 10); lia.
  - intros Hgt y2 m2 d2 E. injection E as _ Em _.
    destruct (Z.leb_spec d (DaysInMonth y m)); [lia|].
    apply negb_true_iff in Hc3. apply Z.eqb_neq in Hc3.
    intros Heq. apply Hc3. apply mp_month_inj; [assumption|assumption|]. lia.
Qed.



(** Known dates: the epoch, a leap day, and the days around a century that
    is not a leap year. *)
Example civil_known_dates :
  civil_from_days 0 = (1970, 1, 1) /\
  civil_from_days 11016 = (2000, 2, 29) /\
  civil_from_days (-25509) = (1900, 2, 28) /\
  civil_from_days (-25508) = (1900, 3, 1) /\
  days_from_civil 2026 11 3 = 20760 /\
  WeekDay (20760 * msPerDay) = 2.
Proof. repeat split; reflexivity. Qed.

Example parseInt_examples :
  parseInt "2026" 0 = Some 2026 /\ parseInt " 7" 10 = Some 7 /\
  parseInt "7x" 10 = Some 7 /\ parseInt "-3" 10 = Some (-3) /\
  parseInt "0x1F" 0 = Some 31 /\ parseInt "0x" 0 = None /\
  parseInt "ab" 10 = None /\ parseInt EmptyString 10 = None.
Proof. repeat split; reflexivity. Qed.

Example toUTCString_examples :
  toUTCString (Some sampleNow) = "Fri, 02 Jan 2026 23:54:56 GMT" /\
  toUTCString (Some 0) = "Thu, 01 Jan 1970 00:00:00 GMT" /\
  toUTCString None = "Invalid Date".
Proof. repeat split; reflexivity. Qed.

Lemma days_from_civil_linear (y m d : Z) :
  days_from_civil y m d = days_from_civil y m 1 + d - 1.
Proof. unfold days_from_civil, doe_of. lia. Qed.

Lemma MakeDay_civil (z y m d dt : Z) :
  civil_from_days z = (y, m, d) -> MakeDay y (m - 1) dt = z - d + dt.
Proof.
  intros E. destruct (days_from_civil_from_days z y m d E) as (Hm & Hd & Hz).
  unfold MakeDay.
  replace ((m - 1) / 12) with 0 by lia.
  replace ((m - 1) mod 12 + 1) with m by lia.
  rewrite Z.add_0_r, <- Hz, (days_from_civil_linear y m d). lia.
Qed.

(** [MakeDay] of the calendar fields of an instant, with another day of the
    month. *)
Lemma MakeDay_fields (t dt : Z) :
  MakeDay (YearFromTime t) (MonthFromTime t) dt = Day t - DateFromTime t + dt.
Proof.
  unfold YearFromTime, MonthFromTime, DateFromTime.
  destruct (civil_from_days (Day t)) as [[y m] d] eqn:E.
  exact (MakeDay_civil _ _ _ _ dt E).
Qed.

Lemma fourDigitYear_year (t : Z) :
  fourDigitYear t -> 100 <= YearFromTime t <= 9999.
Proof.
  unfold fourDigitYear, YearFromTime. intros H.
  destruct (civil_from_days (Day t)) as [[y m] d] eqn:E.
  destruct (days_from_civil_from_days _ _ _ _ E) as (Hm & Hd & Hz).
  assert (Hday : -683003 <= Day t <= 2932896) by (unfold Day, msPerDay; lia).
  rewrite <- Hz in Hday. clear E Hz H.
  unfold days_from_civil, doe_of in Hday.
  destruct (Z.leb_spec m 2); lia.
Qed.

Lemma fullYear_four_digit (t : Z) :
  fourDigitYear t -> fullYear (YearFromTime t) = YearFromTime t.
Proof.
  intros H. apply fourDigitYear_year in H. unfold fullYear.
  destruct (Z.leb_spec 0 (YearFromTime t)); destruct (Z.leb_spec (YearFromTime t) 99);
    simpl; lia.
Qed.

(** [Date.UTC] of the calendar fields of an instant is the midnight that
    starts its day. *)
Lemma Date_UTC_fields (t : Z) :
  fourDigitYear t ->
  Date_UTC (Some (YearFromTime t)) (Some (MonthFromTime t)) (Some (DateFromTime t))
  = Some (Day t * msPerDay).
Proof.
  intros H. unfold Date_UTC. rewrite (fullYear_four_digit t H), MakeDay_fields.
  unfold MakeDate, TimeClip.
  replace (Day t - DateFromTime t + DateFromTime t) with (Day t) by lia.
  unfold fourDigitYear in H.
  destruct (Z.leb_spec (Z.abs (Day t * msPerDay + 0)) 8640000000000000) as [_|Hbad];
    [f_equal; lia|].
  unfold Day, msPerDay in Hbad. lia.
Qed.

Section ElapsedDays.

Variable tz : TimeZone.
Variable now : Z.

Lemma getDaysBetween_valid (t : Z) :
  fourDigitYear now -> fourDigitYear (LocalTime tz t) ->
  getDaysBetween tz now (Some t) = Some (Z.abs (Day now - Day (LocalTime tz t))).
Proof.
  intros Hn Ht. unfold getDaysBetween, newDate, getUTCFullYear, getUTCMonth,
    getUTCDate, getFullYear, getMonth, getDate, option_map.
  rewrite (Date_UTC_fields now Hn), (Date_UTC_fields _ Ht).
  unfold num_sub, Math_abs, Math_floor_div, option_map. f_equal.
  unfold msPerDay. lia.
Qed.

End ElapsedDays.

Lemma Some_inj {A : Type} (x y : A) : Some x = Some y -> x = y.
Proof. intros H. congruence. Qed.

(* ------------------------------------------------------------------ *)
(** ** Arrays *)

Lemma mapi_from_length {A B : Type} (f : A -> Z -> B) (l : list A) :
  forall i, List.length (mapi_from f i l) = List.length l.
Proof. induction l as [|x r IH]; intros i; simpl; [reflexivity|now rewrite IH]. Qed.

Lemma mapi_from_nth_error {A B : Type} (f : A -> Z -> B) (l : list A) :
  forall i k,
    nth_error (mapi_from f i l) k
    = option_map (fun x => f x (i + Z.of_nat k)) (nth_error l k).
Proof.
  induction l as [|x r IH]; intros i k.
  - destruct k; reflexivity.
  - destruct k as [|k]; simpl.
    + now rewrite Z.add_0_r.
    + rewrite IH. destruct (nth_error r k); simpl; [|reflexivity].
      do 2 f_equal. lia.
Qed.

Lemma slice0_length {A : Type} (l : list A) (k : Z) :
  0 <= k ->
  Z.of_nat (List.length (slice0 l (Some k))) = Z.min k (Z.of_nat (List.length l)).
Proof.
  intros Hk. unfold slice0.
  destruct (Z.ltb_spec k 0); [lia|].
  rewrite length_firstn. lia.
Qed.

Lemma slice0_nth_error {A : Type} (l : list A) (e : number) (i : nat) (x : A) :
  nth_error (slice0 l e) i = Some x -> nth_error l i = Some x.
Proof.
  unfold slice0. set (n := Z.to_nat _). clearbody n. revert l i.
  induction n as [|n IH]; intros l i H.
  - destruct i; discriminate.
  - destruct l as [|a l]; [destruct i; discriminate|].
    destruct i as [|i]; simpl in *; [exact H|]. now apply IH.
Qed.

Lemma mapi_slice0_nth {A B : Type} (f : A -> Z -> B) (l : list A) (e : number)
    (i : nat) (y : B) :
  nth_error (mapi f (slice0 l e)) i = Some y ->
  exists x, nth_error l i = Some x /\ y = f x (Z.of_nat i).
Proof.
  unfold mapi. rewrite mapi_from_nth_error.
  destruct (nth_error (slice0 l e) i) as [x|] eqn:E; [|discriminate].
  intros H. apply Some_inj in H. rewrite Z.add_0_l in H.
  exists x. split; [exact (slice0_nth_error _ _ _ _ E)|]. symmetry. exact H.
Qed.

(** [Math.ceil(a / n)] is the least integer [k] with [a <= k * n]. *)
Lemma Math_ceil_div_spec (a n : Z) :
  1 <= n ->
  (Math_ceil_div a n - 1) * n < a <= Math_ceil_div a n * n.
Proof.
  intros Hn. unfold Math_ceil_div.
  pose proof (Z.div_mod (- a) n ltac:(lia)) as E.
  pose proof (Z.mod_pos_bound (- a) n ltac:(lia)) as B.
  nia.
Qed.

(* ------------------------------------------------------------------ *)
(** ** The schedule engine *)

Section Schedule.

Variable tz : TimeZone.
Variable now : Z.
Variables fullBookList otBookList ntBookList : list BookChapter.

Local Notation lookup := (bookListMap fullBookList otBookList ntBookList).
Local Notation catalog := (selectedCatalog fullBookList otBookList ntBookList).
Local Notation build :=
  (BuildRSSFeedItems tz now fullBookList otBookList ntBookList).

Lemma sanitized_plan_lookup (plan : string) :
  In plan ["nt"; "ot"; "full"]%list ->
  lookup plan = OwnCatalog (catalog plan).
Proof.
  intros [<-|[<-|[<-|[]]]]; reflexivity.
Qed.

Lemma BuildRSSFeedItems_eq (plan translation : string) (startDate : Date) (n : Z) :
  lookup plan <> InheritedProperty ->
  build plan translation startDate n
  = Some (mapi (processChapter tz now plan translation (getDaysBetween tz now startDate) n)
            (slice0 (catalog plan)
               (Math_min (num_mul (getDaysBetween tz now startDate) (Some n)) (Some 1189)))).
Proof.
  intros H.
  unfold BuildRSSFeedItems, selectedCatalog.
  destruct (lookup plan); [reflexivity|congruence|reflexivity].
Qed.

Lemma BuildRSSFeedItems_length (plan translation : string) (t n : Z) :
  In plan ["nt"; "ot"; "full"]%list -> 1 <= n <= 99 ->
  fourDigitYear now -> fourDigitYear (LocalTime tz t) ->
  exists days items,
    getDaysBetween tz now (Some t) = Some days /\ 0 <= days /\
    build plan translation (Some t) n = Some items /\
    Z.of_nat (List.length items)
    = Z.min (Z.min (days * n) 1189) (Z.of_nat (List.length (catalog plan))).
Proof.
  intros Hp Hn Hnow Ht.
  exists (Z.abs (Day now - Day (LocalTime tz t))).
  eexists. split; [apply getDaysBetween_valid; assumption|].
  split; [lia|].
  rewrite BuildRSSFeedItems_eq
    by (rewrite (sanitized_plan_lookup plan Hp); discriminate).
  split; [reflexivity|].
  unfold mapi. rewrite mapi_from_length, (getDaysBetween_valid tz now t Hnow Ht).
  cbn [num_mul Math_min]. apply slice0_length. lia.
Qed.

Lemma SanitizePlan_fallback (key : string) :
  ~ In key ["nt"; "ot"; "full"]%list -> SanitizePlan key = "full".
Proof.
  intros H. unfold SanitizePlan.
  destruct (existsb (String.eqb key) ["nt"; "ot"; "full"]%list) eqn:E; [|reflexivity].
  apply existsb_exists in E as (x & Hin & Heq).
  apply String.eqb_eq in Heq. subst x. contradiction.
Qed.

Lemma unknown_key_lookup (key : string) :
  ~ In key ["nt"; "ot"; "full"]%list -> ~ In key objectPrototypeKeys ->
  lookup key = Undefined.
Proof.
  intros Hv Hp. unfold bookListMap.
  destruct (String.eqb_spec key "full") as [->|_]; [exfalso; apply Hv; simpl; tauto|].
  destruct (String.eqb_spec key "ot") as [->|_]; [exfalso; apply Hv; simpl; tauto|].
  destruct (String.eqb_spec key "nt") as [->|_]; [exfalso; apply Hv; simpl; tauto|].
  destruct (existsb (String.eqb key) objectPrototypeKeys) eqn:E; [|reflexivity].
  apply existsb_exists in E as (x & Hin & Heq).
  apply String.eqb_eq in Heq. subst x. contradiction.
Qed.

(** The item at index [i] is [processChapter] of the catalog entry at
    index [i]. *)
Lemma BuildRSSFeedItems_nth (plan translation : string) (startDate : Date)
    (n : Z) (items : list RSSItem) (i : nat) (item : RSSItem) :
  lookup plan <> InheritedProperty ->
  build plan translation startDate n = Some items ->
  nth_error items i = Some item ->
  exists chapter,
    nth_error (catalog plan) i = Some chapter /\
    item = processChapter tz now plan translation
             (getDaysBetween tz now startDate) n chapter (Z.of_nat i).
Proof.
  intros Hp Hb Hi.
  pose proof (BuildRSSFeedItems_eq plan translation startDate n Hp) as E.
  rewrite Hb in E. apply Some_inj in E. rewrite E in Hi.
  exact (mapi_slice0_nth _ _ _ _ _ Hi).
Qed.

(** C4. The item made from the catalog entry at index [i]: title, day
    number in the description, fixed author, and the Bible Gateway link
    built from the percent-encoded book name, ["%20"], the chapter number
    and the translation code. *)
Theorem processChapter_item_fields (plan translation : string) (startDate : Date)
    (n : Z) (items : list RSSItem) (i : nat) (item : RSSItem) :
  In plan ["nt"; "ot"; "full"]%list -> 1 <= n <= 99 ->
  build plan translation startDate n = Some items ->
  nth_error items i = Some item ->
  exists chapter dayNumber,
    nth_error (catalog plan) i = Some chapter /\
    (dayNumber - 1) * n < Z.of_nat i + 1 <= dayNumber * n /\
    title item = Book chapter ++ " " ++ intToString (Chapter chapter) /\
    description item
    = "Day " ++ intToString dayNumber ++ " of " ++ toUpperCase plan
      ++ " plan in " ++ toUpperCase translation /\
    author item = "Bible Gateway" /\
    url item
    = "https://www.biblegateway.com/passage/?search="
      ++ encodeURIComponent (Book chapter) ++ "%20"
      ++ intToString (Chapter chapter) ++ "&version=" ++ translation.
Proof.
  intros Hp Hn Hb Hi.
  destruct (BuildRSSFeedItems_nth plan translation startDate n items i item)
    as (chapter & Hc & ->); try assumption.
  { rewrite (sanitized_plan_lookup plan Hp). discriminate. }
  exists chapter, (Math_ceil_div (Z.of_nat i + 1) n).
  split; [exact Hc|]. split; [apply Math_ceil_div_spec; lia|].
  unfold processChapter, BuildBibleGatewayURL, bibleGatewaySlug.
  cbn [title description author url].
  split; [reflexivity|]. split; [reflexivity|]. split; reflexivity.
Qed.

(** C9. [getDaysBetween] is the absolute difference, in whole days, between
    the UTC calendar day of the current instant and the calendar day of the
    start date: it is never negative, and a start date [d] days after today
    gives the same count as a start date [d] days before today. *)
Theorem getDaysBetween_absolute_symmetric (t tFuture tPast d : Z) :
  fourDigitYear now ->
  fourDigitYear (LocalTime tz t) ->
  fourDigitYear (LocalTime tz tFuture) ->
  fourDigitYear (LocalTime tz tPast) ->
  Day (LocalTime tz tFuture) = Day now + d ->
  Day (LocalTime tz tPast) = Day now - d ->
  exists days,
    getDaysBetween tz now (Some t) = Some days /\
    days = Z.abs (Day now - Day (LocalTime tz t)) /\
    0 <= days /\
    getDaysBetween tz now (Some tFuture) = Some (Z.abs d) /\
    getDaysBetween tz now (Some tPast) = Some (Z.abs d).
Proof.
  intros Hn Ht Hf Hp Ef Ep.
  exists (Z.abs (Day now - Day (LocalTime tz t))).
  rewrite !getDaysBetween_valid by assumption.
  rewrite Ef, Ep.
  repeat split; try lia; f_equal; lia.
Qed.

(** C1. On sanitized input [BuildRSSFeedItems] returns at most
    [min(elapsedDays * chaptersPerDay, 1189)] items and never more items
    than the catalog selected by the plan holds. *)
Theorem BuildRSSFeedItems_count_bounded (plan translation : string) (t n : Z) :
  In plan ["nt"; "ot"; "full"]%list -> 1 <= n <= 99 ->
  fourDigitYear now -> fourDigitYear (LocalTime tz t) ->
  exists days items,
    getDaysBetween tz now (Some t) = Some days /\
    build plan translation (Some t) n = Some items /\
    Z.of_nat (List.length items) <= Z.min (days * n) 1189 /\
    (List.length items <= List.length (catalog plan))%nat.
Proof.
  intros Hp Hn Hnow Ht.
  destruct (BuildRSSFeedItems_length plan translation t n Hp Hn Hnow Ht)
    as (days & items & Hd & Hd0 & Hb & Hlen).
  exists days, items. repeat split; try assumption; lia.
Qed.

(** C10. On sanitized input the number of items is exactly
    [min(elapsedDays * chaptersPerDay, 1189, catalog length)]; with a
    catalog that is not empty the list is empty exactly when
    [elapsedDays * chaptersPerDay = 0]; and a plan key that is not
    recognized selects the full-Bible catalog. *)
Theorem BuildRSSFeedItems_count_exact (plan translation : string) (t n : Z) :
  In plan ["nt"; "ot"; "full"]%list -> 1 <= n <= 99 ->
  fourDigitYear now -> fourDigitYear (LocalTime tz t) ->
  (exists days items,
     getDaysBetween tz now (Some t) = Some days /\
     build plan translation (Some t) n = Some items /\
     Z.of_nat (List.length items)
     = Z.min (Z.min (days * n) 1189) (Z.of_nat (List.length (catalog plan))) /\
     (catalog plan <> nil -> (items = nil <-> days * n = 0))) /\
  (forall key, ~ In key ["nt"; "ot"; "full"]%list ->
     catalog (SanitizePlan key) = fullBookList /\
     (~ In key objectPrototypeKeys ->
      catalog key = fullBookList /\
      exists items,
        build key translation (Some t) n = Some items /\
        List.length items = List.length (slice0 fullBookList
          (Math_min (num_mul (getDaysBetween tz now (Some t)) (Some n)) (Some 1189))))).
Proof.
  intros Hp Hn Hnow Ht. split.
  - destruct (BuildRSSFeedItems_length plan translation t n Hp Hn Hnow Ht)
      as (days & items & Hd & Hd0 & Hb & Hlen).
    exists days, items. repeat split; try assumption.
    + intros ->. simpl in Hlen.
      destruct (catalog plan); [congruence|]. simpl List.length in Hlen. nia.
    + intros Hz. rewrite Hz in Hlen.
      destruct items; [reflexivity|]. simpl List.length in Hlen. lia.
  - intros key Hkey. split.
    + rewrite (SanitizePlan_fallback key Hkey). reflexivity.
    + intros Hproto.
      pose proof (unknown_key_lookup key Hkey Hproto) as Hu.
      assert (Hc : catalog key = fullBookList)
        by (unfold selectedCatalog; rewrite Hu; reflexivity).
      split; [exact Hc|].
      eexists. split.
      * apply BuildRSSFeedItems_eq. rewrite Hu. discriminate.
      * unfold mapi. rewrite mapi_from_length, Hc. reflexivity.
Qed.

End Schedule.

(** The scenarios of the test suite, on the sample resources: a plan
    started one day ago with one chapter a day holds one item, and a plan
    started three days ago with two chapters a day is cut by the catalog. *)
Example schedule_scenarios :
  option_map (map title)
    (BuildRSSFeedItems (fixedTZ 0) sampleNow sampleFull sampleOT sampleNT
       "ot" "ESV" (SanitizeDate (fixedTZ 0) sampleNow "20260101") 1)
  = Some ["Genesis 1"]%list /\
  option_map (map title)
    (BuildRSSFeedItems (fixedTZ 0) sampleNow sampleFull sampleOT sampleNT
       "nt" "ESV" (SanitizeDate (fixedTZ 0) sampleNow "20251230") 2)
  = Some ["Matthew 1"; "Matthew 2"]%list /\
  option_map (map description)
    (BuildRSSFeedItems (fixedTZ 0) sampleNow sampleFull sampleOT sampleNT
       "full" "KJV" (SanitizeDate (fixedTZ 0) sampleNow "20251231") 2)
  = Some ["Day 1 of FULL plan in KJV"; "Day 1 of FULL plan in KJV";
          "Day 2 of FULL plan in KJV"; "Day 2 of FULL plan in KJV"]%list /\
  BuildRSSFeedItems (fixedTZ 0) sampleNow sampleFull sampleOT sampleNT
    "constructor" "ESV" (Some sampleStart) 1
  = None.
Proof. repeat split; vm_compute; reflexivity. Qed.

Lemma sample_instants_four_digit :
  fourDigitYear sampleNow /\
  fourDigitYear (LocalTime (fixedTZ 0) sampleStart) /\
  fourDigitYear (LocalTime (fixedTZ 0) sampleFutureStart).
Proof. unfold fourDigitYear. vm_compute. intuition discriminate. Qed.

Lemma getDaysBetween_absolute_symmetric_witness :
  exists days,
    getDaysBetween (fixedTZ 0) sampleNow (Some sampleStart) = Some days /\
    days = Z.abs (Day sampleNow - Day (LocalTime (fixedTZ 0) sampleStart)) /\
    0 <= days /\
    getDaysBetween (fixedTZ 0) sampleNow (Some sampleFutureStart) = Some (Z.abs 2) /\
    getDaysBetween (fixedTZ 0) sampleNow (Some 1767139200000) = Some (Z.abs 2).
Proof.
  apply (getDaysBetween_absolute_symmetric (fixedTZ 0) sampleNow
           sampleStart sampleFutureStart 1767139200000 2);
    try (unfold fourDigitYear; vm_compute; intuition discriminate);
    vm_compute; reflexivity.
Defined.

Lemma BuildRSSFeedItems_count_bounded_witness :
  exists days items,
    getDaysBetween (fixedTZ 0) sampleNow (Some sampleStart) = Some days /\
    BuildRSSFeedItems (fixedTZ 0) sampleNow sampleFull sampleOT sampleNT
      "ot" "ESV" (Some sampleStart) 3 = Some items /\
    Z.of_nat (List.length items) <= Z.min (days * 3) 1189 /\
    (List.length items
     <= List.length (selectedCatalog sampleFull sampleOT sampleNT "ot"))%nat.
Proof.
  apply (BuildRSSFeedItems_count_bounded (fixedTZ 0) sampleNow
           sampleFull sampleOT sampleNT "ot" "ESV" sampleStart 3);
    [simpl; tauto | lia | apply sample_instants_four_digit
     | apply sample_instants_four_digit].
Defined.

Lemma BuildRSSFeedItems_count_exact_witness :
  exists days items,
    getDaysBetween (fixedTZ 0) sampleNow (Some sampleStart) = Some days /\
    BuildRSSFeedItems (fixedTZ 0) sampleNow sampleFull sampleOT sampleNT
      "nt" "ESV" (Some sampleStart) 5 = Some items /\
    Z.of_nat (List.length items)
    = Z.min (Z.min (days * 5) 1189)
        (Z.of_nat (List.length (selectedCatalog sampleFull sampleOT sampleNT "nt"))) /\
    (selectedCatalog sampleFull sampleOT sampleNT "nt" <> nil ->
     (items = nil <-> days * 5 = 0)).
Proof.
  refine (proj1 (BuildRSSFeedItems_count_exact (fixedTZ 0) sampleNow
                   sampleFull sampleOT sampleNT "nt" "ESV" sampleStart 5 _ _ _ _));
    [simpl; tauto | lia | apply sample_instants_four_digit
     | apply sample_instants_four_digit].
Defined.

Lemma processChapter_item_fields_witness :
  exists chapter dayNumber,
    nth_error (selectedCatalog sampleFull sampleOT sampleNT "ot") 3 = Some chapter /\
    (dayNumber - 1) * 2 < Z.of_nat 3 + 1 <= dayNumber * 2 /\
    title {| title := "1 Samuel 1";
             description := "Day 2 of OT plan in ESV";
             url := "https://www.biblegateway.com/passage/?search=1%20Samuel%201&version=ESV";
             author := "Bible Gateway";
             date := Some 1767225296000 |}
    = Book chapter ++ " " ++ intToString (Chapter chapter) /\
    "Day 2 of OT plan in ESV"
    = "Day " ++ intToString dayNumber ++ " of " ++ toUpperCase "ot"
      ++ " plan in " ++ toUpperCase "ESV" /\
    "Bible Gateway" = "Bible Gateway" /\
    "https://www.biblegateway.com/passage/?search=1%20Samuel%201&version=ESV"
    = "https://www.biblegateway.com/passage/?search="
      ++ encodeURIComponent (Book chapter) ++ "%20"
      ++ intToString (Chapter chapter) ++ "&version=" ++ "ESV".
Proof.
  refine (processChapter_item_fields (fixedTZ 0) sampleNow sampleFull sampleOT sampleNT
            "ot" "ESV" (Some 1767052800000) 2 _ 3 _ _ _ _ _);
    [simpl; tauto | lia | vm_compute; reflexivity | vm_compute; reflexivity].
Defined.

(* ------------------------------------------------------------------ *)
(** ** Chapters per day *)

(** C8. [SanitizeChapters] answers 1 for a string of more than two
    characters, for a string that does not parse and for a parsed value
    outside 1..99; otherwise it answers the parsed value. *)
Theorem SanitizeChapters_fallback (s : string) :
  (2 < strlen s -> SanitizeChapters s = 1) /\
  (parseInt s 10 = None -> SanitizeChapters s = 1) /\
  (forall r, parseInt s 10 = Some r -> r < 1 \/ 99 < r -> SanitizeChapters s = 1) /\
  (forall r, strlen s <= 2 -> parseInt s 10 = Some r -> 1 <= r <= 99 ->
     SanitizeChapters s = r) /\
  1 <= SanitizeChapters s <= 99 /\
  SanitizeChapters "0" = 1 /\
  SanitizeChapters "100" = 1.
Proof.
  unfold SanitizeChapters.
  destruct (Z.gtb_spec (strlen s) 2) as [Hlong|Hshort].
  - repeat split; try reflexivity; try lia; intros; lia.
  - destruct (parseInt s 10) as [r|] eqn:E; unfold isNaN, num_lt, num_gt, num_lt; simpl.
    + destruct (Z.ltb_spec r 1); destruct (Z.ltb_spec 99 r); simpl;
        repeat split; try reflexivity; try lia; intros; try congruence;
        match goal with
        | H : Some _ = Some _ |- _ => apply Some_inj in H; subst; lia
        end.
    + repeat split; try reflexivity; try lia; intros; congruence.
Qed.

Lemma SanitizeChapters_fallback_witness :
  SanitizeChapters "42" = 42 /\ SanitizeChapters "-3" = 1 /\ SanitizeChapters "123" = 1.
Proof.
  split; [|split].
  - apply (proj1 (proj2 (proj2 (proj2 (SanitizeChapters_fallback "42")))) 42);
      [vm_compute; discriminate | reflexivity | lia].
  - apply (proj1 (proj2 (proj2 (SanitizeChapters_fallback "-3"))) (-3));
      [reflexivity | lia].
  - apply (proj1 (SanitizeChapters_fallback "123")). vm_compute. reflexivity.
Defined.

(* ------------------------------------------------------------------ *)
(** ** The self link of the feed *)

(** C3. The handler writes the self link with the start date before the
    translation: for the request [/rssbible/ot/esv/20260101/1/feed.rss] the
    embedded link is [.../rssbible/ot/20260101/ESV/1/feed.rss], which is not
    the route shape with the sanitized values; read back by the route
    pattern it gives the translation ["20260101"] and the start date
    ["ESV"]. *)
Theorem feedUrl_swaps_translation_and_date :
  (forall tz now registry plan translation startDate chapters,
     feedUrl (handlerFeedMetadata tz now (SanitizePlan plan)
                (SanitizeTranslation registry translation)
                (SanitizeDate tz now startDate) (SanitizeChapters chapters))
     = "https://www.bibleplanfeed.com/rssbible/" ++ SanitizePlan plan ++ "/"
       ++ formatDateToyyyyMMdd tz (SanitizeDate tz now startDate) ++ "/"
       ++ SanitizeTranslation registry translation ++ "/"
       ++ intToString (SanitizeChapters chapters) ++ "/feed.rss") /\
  rssMatch "/rssbible/ot/esv/20260101/1/feed.rss"
  = Some ("ot", "esv", "20260101", "1") /\
  feedUrl (handlerFeedMetadata (fixedTZ 0) sampleNow (SanitizePlan "ot")
             (SanitizeTranslation sampleTranslations "esv")
             (SanitizeDate (fixedTZ 0) sampleNow "20260101") (SanitizeChapters "1"))
  = "https://www.bibleplanfeed.com/rssbible/ot/20260101/ESV/1/feed.rss" /\
  "https://www.bibleplanfeed.com/rssbible/" ++ SanitizePlan "ot" ++ "/"
  ++ SanitizeTranslation sampleTranslations "esv" ++ "/"
  ++ formatDateToyyyyMMdd (fixedTZ 0) (SanitizeDate (fixedTZ 0) sampleNow "20260101")
  ++ "/" ++ intToString (SanitizeChapters "1") ++ "/feed.rss"
  = "https://www.bibleplanfeed.com/rssbible/ot/ESV/20260101/1/feed.rss" /\
  feedUrl (handlerFeedMetadata (fixedTZ 0) sampleNow (SanitizePlan "ot")
             (SanitizeTranslation sampleTranslations "esv")
             (SanitizeDate (fixedTZ 0) sampleNow "20260101") (SanitizeChapters "1"))
  <> "https://www.bibleplanfeed.com/rssbible/ot/ESV/20260101/1/feed.rss" /\
  rssMatch "/rssbible/ot/20260101/ESV/1/feed.rss"
  = Some ("ot", "20260101", "ESV", "1").
Proof.
  split; [intros; reflexivity|].
  repeat split; vm_compute; try reflexivity; discriminate.
Qed.

(* ------------------------------------------------------------------ *)
(** ** Time zones *)

(** C6. With a start date that falls back to the current instant, the
    elapsed days compare the UTC day of [now] with its local day: at
    2026-01-02T23:54:56Z a host two hours east of Greenwich is already on
    January 3rd and serves one item, a host on UTC serves none. And the
    publish dates are moved back in local time: for the accepted start date
    20251231, a host whose zone left daylight saving time on January 2nd
    dates the two items at 22:54:56Z, a host on UTC at 23:54:56Z. *)
Theorem fallback_start_date_depends_on_time_zone :
  SanitizeDate (fixedTZ 0) sampleNow "xyz" = Some sampleNow /\
  SanitizeDate (fixedTZ 7200000) sampleNow "xyz" = Some sampleNow /\
  BuildRSSFeedItems (fixedTZ 0) sampleNow sampleFull sampleOT sampleNT
    "ot" "ESV" (SanitizeDate (fixedTZ 0) sampleNow "xyz") 1
  = Some nil /\
  BuildRSSFeedItems (fixedTZ 7200000) sampleNow sampleFull sampleOT sampleNT
    "ot" "ESV" (SanitizeDate (fixedTZ 7200000) sampleNow "xyz") 1
  = Some [ {| title := "Genesis 1";
              description := "Day 1 of OT plan in ESV";
              url := "https://www.biblegateway.com/passage/?search=Genesis%201&version=ESV";
              author := "Bible Gateway";
              date := Some (sampleNow - msPerDay) |} ]%list /\
  getDaysBetween (fixedTZ 0) sampleNow (Some sampleNow) = Some 0 /\
  getDaysBetween (fixedTZ 7200000) sampleNow (Some sampleNow) = Some 1 /\
  option_map (map (fun item => formatRSSDate (date item)))
    (BuildRSSFeedItems (fixedTZ 0) sampleNow sampleFull sampleOT sampleNT
       "ot" "ESV" (SanitizeDate (fixedTZ 0) sampleNow "20251231") 1)
  = Some ["Wed, 31 Dec 2025 23:54:56 GMT"; "Thu, 01 Jan 2026 23:54:56 GMT"]%list /\
  option_map (map (fun item => formatRSSDate (date item)))
    (BuildRSSFeedItems sampleSummerZone sampleNow sampleFull sampleOT sampleNT
       "ot" "ESV" (SanitizeDate sampleSummerZone sampleNow "20251231") 1)
  = Some ["Wed, 31 Dec 2025 22:54:56 GMT"; "Thu, 01 Jan 2026 22:54:56 GMT"]%list.
Proof. repeat split; vm_compute; reflexivity. Qed.

(* ------------------------------------------------------------------ *)
(** ** The start date *)

Lemma MakeDay_month (y m d : Z) :
  1 <= m <= 12 -> MakeDay y (m - 1) d = days_from_civil y m d.
Proof.
  intros Hm. unfold MakeDay.
  replace ((m - 1) / 12) with 0 by lia.
  replace ((m - 1) mod 12 + 1) with m by lia.
  rewrite Z.add_0_r, (days_from_civil_linear y m d). lia.
Qed.

Lemma days_from_civil_range (y m d : Z) :
  1900 <= y <= 2100 -> 1 <= m <= 12 -> 1 <= d <= 31 ->
  -25567 <= days_from_civil y m d <= 47846.
Proof.
  intros Hy Hm Hd. unfold days_from_civil, doe_of.
  destruct (Z.leb_spec m 2); lia.
Qed.

Lemma Day_midnight (D : Z) : Day (D * msPerDay) = D.
Proof. unfold Day, msPerDay. lia. Qed.

(** In a zone of constant offset, [new Date(y, m - 1, d)] is the local
    midnight that starts the day [days_from_civil y m d]. *)
Lemma newDate_ymd_fixed (off y m d : Z) :
  - msPerDay < off < msPerDay ->
  1900 <= y <= 2100 -> 1 <= m <= 12 -> 1 <= d <= 31 ->
  newDate_ymd (fixedTZ off) (Some y) (Some (m - 1)) (Some d)
  = Some (days_from_civil y m d * msPerDay - off).
Proof.
  intros Hoff Hy Hm Hd. unfold newDate_ymd, fullYear.
  destruct (Z.leb_spec 0 y); destruct (Z.leb_spec y 99); simpl; try lia.
  rewrite (MakeDay_month y m d Hm).
  pose proof (days_from_civil_range y m d Hy Hm Hd) as R.
  unfold UTC, fixedTZ, MakeDate, MakeTime, TimeClip.
  destruct (Z.leb_spec (Z.abs (days_from_civil y m d * msPerDay + (0 * msPerHour + 0 * msPerMinute + 0 * msPerSecond + 0) - off)) 8640000000000000) as [_|Hbad].
  - f_equal. lia.
  - unfold msPerDay, msPerHour, msPerMinute, msPerSecond in *. lia.
Qed.

Lemma range_check_negb (y m d : Z) :
  num_lt (Some y) (Some 1900) || num_gt (Some y) (Some 2100)
  || num_lt (Some (m - 1)) (Some 0) || num_gt (Some (m - 1)) (Some 11)
  || num_lt (Some d) (Some 1) || num_gt (Some d) (Some 31)
  = negb ((1900 <=? y) && (y <=? 2100) && (1 <=? m) && (m <=? 12)
          && (1 <=? d) && (d <=? 31)).
Proof.
  unfold num_gt, num_lt. lia.
Qed.

Section StartDate.

Variable off : Z.
Variable now : Z.
Hypothesis Hoff : - msPerDay < off < msPerDay.

Local Notation sanitize := (SanitizeDate (fixedTZ off) now).

Lemma LocalTime_fixed_midnight (D : Z) :
  LocalTime (fixedTZ off) (D * msPerDay - off) = D * msPerDay.
Proof. unfold LocalTime, fixedTZ. lia. Qed.

(** What [SanitizeDate] answers once the three fields have parsed. *)
Lemma SanitizeDate_fields (s : string) (y m d : Z) :
  strlen s = 8 ->
  parseInt (js_substring 0 4 s) 0 = Some y ->
  parseInt (js_substring 4 6 s) 0 = Some m ->
  parseInt (js_substring 6 8 s) 0 = Some d ->
  sanitize s
  = if (1900 <=? y) && (y <=? 2100) && (1 <=? m) && (m <=? 12)
       && (1 <=? d) && (d <=? 31) && (d <=? DaysInMonth y m)
    then Some (days_from_civil y m d * msPerDay - off)
    else Some now.
Proof.
  intros Hlen Ey Em Ed. unfold SanitizeDate.
  rewrite Hlen, Ey, Em, Ed. cbn [Z.eqb Pos.eqb negb num_sub].
  rewrite range_check_negb.
  destruct ((1900 <=? y) && (y <=? 2100) && (1 <=? m) && (m <=? 12)
            && (1 <=? d) && (d <=? 31)) eqn:R; cbn [negb andb]; [|reflexivity].
  repeat (apply andb_true_iff in R as [R ?]).
  assert (Hy : 1900 <= y <= 2100) by lia.
  assert (Hm : 1 <= m <= 12) by lia.
  assert (Hd : 1 <= d <= 31) by lia.
  rewrite (newDate_ymd_fixed off y m d Hoff Hy Hm Hd).
  unfold getMonth, option_map. rewrite LocalTime_fixed_midnight.
  unfold MonthFromTime. rewrite Day_midnight.
  destruct (civil_from_days_from_civil y m d Hm Hd) as [Hin Hout].
  destruct (Z.leb_spec d (DaysInMonth y m)) as [Hle|Hgt].
  - rewrite (Hin Hle). unfold num_neq. rewrite Z.eqb_refl. reflexivity.
  - destruct (civil_from_days (days_from_civil y m d)) as [[y2 m2] d2] eqn:E.
    specialize (Hout Hgt y2 m2 d2 eq_refl). unfold num_neq.
    destruct (Z.eqb_spec (m2 - 1) (m - 1)); [lia|reflexivity].
Qed.

Lemma SanitizeDate_total (s : string) : exists t, sanitize s = Some t.
Proof.
  unfold SanitizeDate.
  destruct (strlen s =? 8); cbn [negb]; [|eexists; reflexivity].
  destruct (_ || _); [eexists; reflexivity|].
  destruct (num_neq _ _) eqn:E; [eexists; reflexivity|].
  destruct (newDate_ymd _ _ _ _) as [t|]; [eexists; reflexivity|].
  discriminate E.
Qed.

Lemma SanitizeDate_rejected (s : string) :
  acceptedDate s = None -> sanitize s = Some now.
Proof.
  unfold acceptedDate. intros H.
  destruct (Z.eqb_spec (strlen s) 8) as [Hlen|Hlen].
  - destruct (parseInt (js_substring 0 4 s) 0) as [y|] eqn:Ey;
    destruct (parseInt (js_substring 4 6 s) 0) as [m|] eqn:Em;
    destruct (parseInt (js_substring 6 8 s) 0) as [d|] eqn:Ed.
    1: { rewrite (SanitizeDate_fields s y m d Hlen Ey Em Ed).
         destruct (_ && _); [discriminate H|reflexivity]. }
    all: unfold SanitizeDate; rewrite Ey, Em, Ed;
      destruct (negb _); [reflexivity|];
      destruct (_ || _); [reflexivity|]; reflexivity.
  - unfold SanitizeDate. destruct (Z.eqb_spec (strlen s) 8); [contradiction|reflexivity].
Qed.

(** The two halves of the acceptance rule. *)
Lemma SanitizeDate_accepts_exactly_parts (s : string) :
  (forall y m d, acceptedDate s = Some (y, m, d) ->
     sanitize s = Some (days_from_civil y m d * msPerDay - off) /\
     -25567 <= days_from_civil y m d <= 47846) /\
  (acceptedDate s = None -> sanitize s = Some now).
Proof.
  split; [|apply SanitizeDate_rejected].
  intros y m d H. unfold acceptedDate in H.
  destruct (Z.eqb_spec (strlen s) 8) as [Hlen|]; [|discriminate].
  destruct (parseInt (js_substring 0 4 s) 0) as [y'|] eqn:Ey; [|discriminate].
  destruct (parseInt (js_substring 4 6 s) 0) as [m'|] eqn:Em; [|discriminate].
  destruct (parseInt (js_substring 6 8 s) 0) as [d'|] eqn:Ed; [|discriminate].
  pose proof (SanitizeDate_fields s y' m' d' Hlen Ey Em Ed) as E.
  destruct (_ && _) eqn:R; [|discriminate].
  apply Some_inj in H. assert (y' = y /\ m' = m /\ d' = d) as (-> & -> & ->)
    by (repeat split; congruence).
  repeat (apply andb_true_iff in R as [R ?]).
  split; [exact E|]. apply days_from_civil_range; lia.
Qed.

(** C7. On a host whose zone keeps a constant offset [off] from UTC,
    [SanitizeDate] answers the written calendar date, as the local
    midnight that starts it, exactly for the strings of eight characters
    whose year is in 1900..2100, month in 1..12, day in 1..31 and whose
    day exists in the month; for every other string it answers the
    current instant. It always answers a valid date. *)
Theorem SanitizeDate_accepts_exactly (s : string) :
  (forall y m d, acceptedDate s = Some (y, m, d) ->
     sanitize s = Some (days_from_civil y m d * msPerDay - off) /\
     getFullYear (fixedTZ off) (sanitize s) = Some y /\
     getMonth (fixedTZ off) (sanitize s) = Some (m - 1) /\
     getDate (fixedTZ off) (sanitize s) = Some d /\
     option_map (fun t => TimeWithinDay (LocalTime (fixedTZ off) t)) (sanitize s)
     = Some 0) /\
  (acceptedDate s = None -> sanitize s = Some now) /\
  (exists t, sanitize s = Some t) /\
  SanitizeDate (fixedTZ off) now "20261332" = Some now.
Proof.
  split; [|split; [apply SanitizeDate_rejected|split; [apply SanitizeDate_total|]]].
  - intros y m d H. unfold acceptedDate in H.
    destruct (Z.eqb_spec (strlen s) 8) as [Hlen|]; [|discriminate].
    destruct (parseInt (js_substring 0 4 s) 0) as [y'|] eqn:Ey; [|discriminate].
    destruct (parseInt (js_substring 4 6 s) 0) as [m'|] eqn:Em; [|discriminate].
    destruct (parseInt (js_substring 6 8 s) 0) as [d'|] eqn:Ed; [|discriminate].
    pose proof (SanitizeDate_fields s y' m' d' Hlen Ey Em Ed) as E.
    destruct (_ && _) eqn:R; [|discriminate].
    apply Some_inj in H. assert (y' = y /\ m' = m /\ d' = d) as (-> & -> & ->)
      by (repeat split; congruence).
    repeat (apply andb_true_iff in R as [R ?]).
    assert (Hm : 1 <= m <= 12) by lia.
    assert (Hd : 1 <= d <= 31) by lia.
    destruct (civil_from_days_from_civil y m d Hm Hd) as [Hin _].
    specialize (Hin ltac:(lia)).
    rewrite E. split; [reflexivity|].
    unfold getFullYear, getMonth, getDate, option_map.
    rewrite LocalTime_fixed_midnight.
    unfold YearFromTime, MonthFromTime, DateFromTime, TimeWithinDay.
    rewrite Day_midnight, Hin.
    repeat split. f_equal. unfold msPerDay. lia.
  - apply SanitizeDate_rejected. vm_compute. reflexivity.
Qed.

End StartDate.

Lemma SanitizeDate_accepts_exactly_witness :
  SanitizeDate (fixedTZ 3600000) sampleNow "20240229"
  = Some (days_from_civil 2024 2 29 * msPerDay - 3600000) /\
  SanitizeDate (fixedTZ 3600000) sampleNow "20240230" = Some sampleNow.
Proof.
  assert (H : - msPerDay < 3600000 < msPerDay) by (unfold msPerDay; lia).
  split.
  - apply (proj1 (SanitizeDate_accepts_exactly 3600000 sampleNow H "20240229") 2024 2 29).
    vm_compute. reflexivity.
  - apply (proj1 (proj2 (SanitizeDate_accepts_exactly 3600000 sampleNow H "20240230"))).
    vm_compute. reflexivity.
Defined.

(* ------------------------------------------------------------------ *)
(** ** Strings *)

Lemma append_assoc (a b c : string) : (a ++ b) ++ c = a ++ (b ++ c).
Proof. induction a as [|x a IH]; simpl; [reflexivity|now rewrite IH]. Qed.

Lemma append_empty_r (a : string) : a ++ EmptyString = a.
Proof. induction a as [|x a IH]; simpl; [reflexivity|now rewrite IH]. Qed.

Lemma contains_refl (s : string) : contains s s.
Proof. exists EmptyString, EmptyString. simpl. now rewrite append_empty_r. Qed.

Lemma contains_app_l (sub a b : string) : contains sub b -> contains sub (a ++ b).
Proof.
  intros (pre & post & ->). exists (a ++ pre), post. now rewrite append_assoc.
Qed.

Lemma contains_app_r (sub a b : string) : contains sub a -> contains sub (a ++ b).
Proof.
  intros (pre & post & ->). exists pre, (post ++ b). now rewrite !append_assoc.
Qed.

Lemma contains_prefix (sub b : string) : contains sub (sub ++ b).
Proof. apply contains_app_r, contains_refl. Qed.

Lemma concat_strings_contains (l : list string) (x : string) :
  In x l -> contains x (concat_strings l).
Proof.
  induction l as [|y l IH]; intros H; [contradiction|].
  destruct H as [->|H]; simpl.
  - apply contains_prefix.
  - apply contains_app_l, IH, H.
Qed.

Lemma contains_trans (a b c : string) : contains a b -> contains b c -> contains a c.
Proof.
  intros (p1 & q1 & ->) (p2 & q2 & ->).
  exists (p2 ++ p1), (q1 ++ q2). now rewrite !append_assoc.
Qed.

(** The rendered feed holds the block of every item. *)
Lemma generateRSSXML_contains_item (meta : FeedMetadata) (items : list RSSItem)
    (item : RSSItem) :
  In item items -> contains (itemXML item) (generateRSSXML meta items).
Proof.
  intros H. unfold generateRSSXML.
  repeat match goal with
         | |- contains _ (concat_strings _ ++ _) => apply contains_app_r
         | |- contains _ (_ ++ _) => apply contains_app_l
         end.
  apply concat_strings_contains, in_map, H.
Qed.

Lemma itemXML_contains_pubDate (item : RSSItem) :
  contains ("<pubDate>" ++ formatRSSDate (date item) ++ "</pubDate>") (itemXML item).
Proof.
  unfold itemXML.
  repeat match goal with
         | |- contains _ ("      <pubDate>" ++ _) => fail 1
         | |- contains _ (_ ++ _) => apply contains_app_l
         end.
  exists "      ", (nl ++ "      <author>" ++ escapeXML (author item) ++ "</author>" ++ nl
                    ++ "    </item>").
  simpl. rewrite !append_assoc. reflexivity.
Qed.

(* ------------------------------------------------------------------ *)
(** ** [toUTCString] writes RFC 822 date-times *)

Lemma WeekDay_range (t : Z) : 0 <= WeekDay t < 7.
Proof. unfold WeekDay. lia. Qed.

Lemma MonthFromTime_range (t : Z) : 0 <= MonthFromTime t < 12.
Proof.
  unfold MonthFromTime. destruct (civil_from_days (Day t)) as [[y m] d] eqn:E.
  destruct (days_from_civil_from_days _ _ _ _ E) as (Hm & _). lia.
Qed.

Lemma DateFromTime_range (t : Z) : 1 <= DateFromTime t <= 31.
Proof.
  unfold DateFromTime. destruct (civil_from_days (Day t)) as [[y m] d] eqn:E.
  destruct (days_from_civil_from_days _ _ _ _ E) as (_ & Hd & _). lia.
Qed.

Lemma DayName_eat (w : Z) (r : string) :
  0 <= w < 7 -> eatOneOf dayNames (DayName w ++ r) = Some r.
Proof.
  intros H.
  assert (C : w = 0 \/ w = 1 \/ w = 2 \/ w = 3 \/ w = 4 \/ w = 5 \/ w = 6) by lia.
  destruct C as [->|[->|[->|[->|[->|[->| ->]]]]]]; reflexivity.
Qed.

Lemma MonthName_eat (m : Z) (r : string) :
  0 <= m < 12 -> eatOneOf monthNames (MonthName m ++ r) = Some r.
Proof.
  intros H.
  assert (C : m = 0 \/ m = 1 \/ m = 2 \/ m = 3 \/ m = 4 \/ m = 5 \/ m = 6
              \/ m = 7 \/ m = 8 \/ m = 9 \/ m = 10 \/ m = 11) by lia.
  destruct C as [->|[->|[->|[->|[->|[->|[->|[->|[->|[->|[->| ->]]]]]]]]]]];
    reflexivity.
Qed.

Lemma pad2_all : all_from 100 0 (fun n => twoDigits (pad2 n)) = true.
Proof. vm_compute. reflexivity. Qed.

Lemma pad4_all : all_from (Z.to_nat 10000) 0 (fun n => fourDigits (pad4 n)) = true.
Proof. vm_compute. reflexivity. Qed.

Lemma pad2_twoDigits (n : Z) : 0 <= n < 100 -> twoDigits (pad2 n) = true.
Proof.
  intros H. exact (all_from_spec _ _ _ pad2_all n ltac:(simpl; lia)).
Qed.

Lemma pad4_fourDigits (n : Z) : 0 <= n < 10000 -> fourDigits (pad4 n) = true.
Proof.
  intros H. apply (all_from_spec _ _ _ pad4_all n). rewrite Z2Nat.id; lia.
Qed.

Lemma eat_twoDigits (s r : string) (q : recognizer) :
  twoDigits s = true -> (eatDigit >> eatDigit >> q) (s ++ r) = q r.
Proof.
  destruct s as [|a [|b [|c s]]]; try discriminate. unfold twoDigits. intros H.
  apply andb_true_iff in H as [Ha Hb].
  cbn [append]. unfold seqR, eatDigit. now rewrite Ha, Hb.
Qed.

Lemma eat_fourDigits (s r : string) (q : recognizer) :
  fourDigits s = true ->
  (eatDigit >> eatDigit >> eatDigit >> eatDigit >> q) (s ++ r) = q r.
Proof.
  destruct s as [|a [|b [|c [|d [|e s]]]]]; try discriminate.
  unfold fourDigits. intros H.
  apply andb_true_iff in H as [H Hd]. apply andb_true_iff in H as [H Hc].
  apply andb_true_iff in H as [Ha Hb].
  cbn [append]. unfold seqR, eatDigit. now rewrite Ha, Hb, Hc, Hd.
Qed.

Lemma eatLiteral_app (lit r : string) : eatLiteral lit (lit ++ r) = Some r.
Proof.
  induction lit as [|c lit IH]; simpl; [reflexivity|].
  now rewrite Ascii.eqb_refl.
Qed.

Lemma append_empty_l (s : string) : EmptyString ++ s = s.
Proof. reflexivity. Qed.

Lemma seqR_eat (p q : recognizer) (s r : string) :
  p s = Some r -> (p >> q) s = q r.
Proof. intros H. unfold seqR. now rewrite H. Qed.

(** The text [toUTCString] writes for an instant of a four-digit year is an
    RFC 822 date-time. *)
Lemma toUTCString_rfc822 (tv : Z) :
  fourDigitYear tv -> isRFC822DateTime (toUTCString (Some tv)) = true.
Proof.
  intros H. pose proof (fourDigitYear_year tv H) as Hy.
  unfold toUTCString.
  destruct (Z.leb_spec 0 (YearFromTime tv)) as [_|]; [|lia].
  rewrite Z.abs_eq by lia. rewrite append_empty_l.
  unfold isRFC822DateTime, rfc822DateTime.
  rewrite (seqR_eat _ _ _ _ (DayName_eat _ _ (WeekDay_range tv))).
  rewrite (seqR_eat _ _ _ _ (eatLiteral_app ", " _)).
  rewrite eat_twoDigits
    by (apply pad2_twoDigits; pose proof (DateFromTime_range tv); lia).
  rewrite (seqR_eat _ _ _ _ (eatLiteral_app " " _)).
  rewrite (seqR_eat _ _ _ _ (MonthName_eat _ _ (MonthFromTime_range tv))).
  rewrite (seqR_eat _ _ _ _ (eatLiteral_app " " _)).
  rewrite eat_fourDigits by (apply pad4_fourDigits; lia).
  rewrite (seqR_eat _ _ _ _ (eatLiteral_app " " _)).
  rewrite eat_twoDigits by (apply pad2_twoDigits; unfold HourFromTime; lia).
  rewrite (seqR_eat _ _ _ _ (eatLiteral_app ":" _)).
  rewrite eat_twoDigits by (apply pad2_twoDigits; unfold MinFromTime; lia).
  rewrite (seqR_eat _ _ _ _ (eatLiteral_app ":" _)).
  rewrite eat_twoDigits by (apply pad2_twoDigits; unfold SecFromTime; lia).
  reflexivity.
Qed.

(* ------------------------------------------------------------------ *)
(** ** Publish dates *)

Lemma newDate_value_TimeClip (x : Z) : newDate_value (TimeClip x) = TimeClip x.
Proof.
  unfold newDate_value. destruct (TimeClip x) as [y|] eqn:E; [|reflexivity].
  unfold TimeClip in *.
  destruct (Z.abs x <=? 8640000000000000) eqn:B; [|discriminate].
  apply Some_inj in E. subst y. now rewrite B.
Qed.

(** [setDate] moves the local calendar day and keeps the local time of
    day. *)
Lemma backdated_value (tz : TimeZone) (now days k : Z) :
  newDate_value
    (setDate tz (newDate now)
       (num_sub (num_sub (getDate tz (newDate now)) (Some 1))
          (num_sub (Some days) (Some k))))
  = TimeClip (UTC tz
      (MakeDate (Day (LocalTime tz now) - (1 + (days - k)))
         (TimeWithinDay (LocalTime tz now)))).
Proof.
  unfold setDate, newDate, getDate, option_map, num_sub.
  rewrite MakeDay_fields, newDate_value_TimeClip.
  do 3 f_equal. lia.
Qed.

Lemma backdated_NaN (tz : TimeZone) (now k : Z) :
  newDate_value
    (setDate tz (newDate now)
       (num_sub (num_sub (getDate tz (newDate now)) (Some 1))
          (num_sub None (Some k))))
  = None.
Proof. unfold setDate, newDate, getDate, option_map, num_sub. reflexivity. Qed.

Lemma processChapter_date (tz : TimeZone) (now : Z) (plan translation : string)
    (days n : Z) (chapter : BookChapter) (index : Z) :
  date (processChapter tz now plan translation (Some days) n chapter index)
  = TimeClip (UTC tz
      (MakeDate (Day (LocalTime tz now) - (1 + (days - Math_ceil_div (index + 1) n)))
         (TimeWithinDay (LocalTime tz now)))).
Proof. unfold processChapter. cbn [date]. apply backdated_value. Qed.

(** In a zone of constant offset that is [k] times 24 hours back. *)
Lemma UTC_fixed_back (off now k : Z) :
  UTC (fixedTZ off)
    (MakeDate (Day (LocalTime (fixedTZ off) now) - k)
       (TimeWithinDay (LocalTime (fixedTZ off) now)))
  = now - k * msPerDay.
Proof. unfold UTC, LocalTime, fixedTZ, MakeDate, Day, TimeWithinDay, msPerDay. lia. Qed.

Section PublishDate.

Variable tz : TimeZone.
Variable now : Z.
Variables fullBookList otBookList ntBookList : list BookChapter.

Local Notation build :=
  (BuildRSSFeedItems tz now fullBookList otBookList ntBookList).

(** C5, as the worker computes it. The publish date of the item of reading
    day [dayNumber] is the current instant moved back
    [1 + (elapsedDays - dayNumber)] calendar days in local time, with the
    local time of day of the current instant kept; the rendered feed
    carries it through [formatRSSDate], which writes an RFC 822
    date-time. *)
Theorem publish_date_backdated (plan translation : string) (t n : Z)
    (items : list RSSItem) (i : nat) (item : RSSItem) :
  In plan ["nt"; "ot"; "full"]%list -> 1 <= n <= 99 ->
  fourDigitYear now -> fourDigitYear (LocalTime tz t) ->
  build plan translation (Some t) n = Some items ->
  nth_error items i = Some item ->
  exists days dayNumber,
    getDaysBetween tz now (Some t) = Some days /\
    (dayNumber - 1) * n < Z.of_nat i + 1 <= dayNumber * n /\
    1 <= dayNumber <= days /\
    date item
    = TimeClip (UTC tz
        (MakeDate (Day (LocalTime tz now) - (1 + (days - dayNumber)))
           (TimeWithinDay (LocalTime tz now)))) /\
    (forall meta,
       contains ("<pubDate>" ++ formatRSSDate (date item) ++ "</pubDate>")
         (generateRSSXML meta items)) /\
    (forall tv, date item = Some tv -> fourDigitYear tv ->
       isRFC822DateTime (formatRSSDate (date item)) = true).
Proof.
  intros Hp Hn Hnow Ht Hb Hi.
  destruct (BuildRSSFeedItems_length tz now fullBookList otBookList ntBookList
              plan translation t n Hp Hn Hnow Ht)
    as (days & items' & Hd & Hd0 & Hb' & Hlen).
  rewrite Hb in Hb'. apply Some_inj in Hb'. subst items'.
  destruct (BuildRSSFeedItems_nth tz now fullBookList otBookList ntBookList
              plan translation (Some t) n items i item)
    as (chapter & Hc & Hitem); try assumption.
  { rewrite (sanitized_plan_lookup _ _ _ plan Hp). discriminate. }
  rewrite Hd in Hitem.
  assert (Hlt : Z.of_nat i < Z.of_nat (List.length items)).
  { apply inj_lt. apply nth_error_Some. rewrite Hi. discriminate. }
  pose proof (Math_ceil_div_spec (Z.of_nat i + 1) n ltac:(lia)) as Hceil.
  exists days, (Math_ceil_div (Z.of_nat i + 1) n).
  split; [exact Hd|]. split; [exact Hceil|]. split; [nia|].
  split; [rewrite Hitem; apply processChapter_date|]. split.
  - intros meta.
    apply (contains_trans _ (itemXML item)).
    + apply itemXML_contains_pubDate.
    + apply generateRSSXML_contains_item. exact (nth_error_In _ _ Hi).
  - intros tv E Hy. rewrite E. apply toUTCString_rfc822, Hy.
Qed.

End PublishDate.

Lemma publish_date_backdated_witness :
  exists days dayNumber,
    getDaysBetween (fixedTZ 0) sampleNow (Some sampleStart) = Some days /\
    (dayNumber - 1) * 1 < Z.of_nat 0 + 1 <= dayNumber * 1 /\
    1 <= dayNumber <= days /\
    Some 1767311696000
    = TimeClip (UTC (fixedTZ 0)
        (MakeDate (Day (LocalTime (fixedTZ 0) sampleNow) - (1 + (days - dayNumber)))
           (TimeWithinDay (LocalTime (fixedTZ 0) sampleNow)))) /\
    (forall meta,
       contains ("<pubDate>" ++ formatRSSDate (Some 1767311696000) ++ "</pubDate>")
         (generateRSSXML meta
            [ {| title := "Genesis 1";
                 description := "Day 1 of OT plan in ESV";
                 url := "https://www.biblegateway.com/passage/?search=Genesis%201&version=ESV";
                 author := "Bible Gateway";
                 date := Some 1767311696000 |} ]%list)) /\
    (forall tv, Some 1767311696000 = Some tv -> fourDigitYear tv ->
       isRFC822DateTime (formatRSSDate (Some 1767311696000)) = true).
Proof.
  refine (publish_date_backdated (fixedTZ 0) sampleNow sampleFull sampleOT sampleNT
            "ot" "ESV" sampleStart 1 _ 0
            {| title := "Genesis 1";
               description := "Day 1 of OT plan in ESV";
               url := "https://www.biblegateway.com/passage/?search=Genesis%201&version=ESV";
               author := "Bible Gateway";
               date := Some 1767311696000 |} _ _ _ _ _ _);
    [simpl; tauto | lia | apply sample_instants_four_digit
     | apply sample_instants_four_digit | vm_compute; reflexivity | reflexivity].
Defined.

(** C5, as stated, fails: at 2026-01-02T23:54:56Z on a UTC host, the item
    of the plan started on 2026-01-01 is dated 2026-01-01T23:54:56Z, which
    is not the local midnight 2026-01-01T00:00:00 of that calendar day. *)
Lemma publish_date_not_local_midnight :
  BuildRSSFeedItems (fixedTZ 0) sampleNow sampleFull sampleOT sampleNT
    "ot" "ESV" (SanitizeDate (fixedTZ 0) sampleNow "20260101") 1
  = Some [ {| title := "Genesis 1";
              description := "Day 1 of OT plan in ESV";
              url := "https://www.biblegateway.com/passage/?search=Genesis%201&version=ESV";
              author := "Bible Gateway";
              date := Some 1767311696000 |} ]%list /\
  TimeWithinDay (LocalTime (fixedTZ 0) 1767311696000) = 86096000 /\
  TimeWithinDay (LocalTime (fixedTZ 0) 1767311696000) <> 0 /\
  Some 1767311696000
  <> newDate_ymd (fixedTZ 0) (Some 2026) (Some 0) (Some 1) /\
  formatRSSDate (Some 1767311696000) = "Thu, 01 Jan 2026 23:54:56 GMT".
Proof. repeat split; vm_compute; try reflexivity; discriminate. Qed.

(* ------------------------------------------------------------------ *)
(** ** Escaping *)

Lemma replaceAll_app (c : ascii) (r a b : string) :
  replaceAll c r (a ++ b) = replaceAll c r a ++ replaceAll c r b.
Proof.
  induction a as [|x a IH]; simpl; [reflexivity|].
  now rewrite IH, append_assoc.
Qed.

Lemma replaceAll_other (c a : ascii) (r : string) :
  Ascii.eqb a c = false -> replaceAll c r (str1 a) = str1 a.
Proof. intros H. simpl. now rewrite H. Qed.

(** The five replacements of [escapeXML], in their order, on one
    character. *)
Lemma escapeXML_char (a : ascii) : escapeXML (str1 a) = escapeChar a.
Proof.
  unfold escapeXML, escapeChar.
  destruct (Ascii.eqb_spec a amp) as [->|Ha]; [reflexivity|].
  destruct (Ascii.eqb_spec a lt) as [->|Hl]; [reflexivity|].
  destruct (Ascii.eqb_spec a gt) as [->|Hg]; [reflexivity|].
  destruct (Ascii.eqb_spec a quot) as [->|Hq]; [reflexivity|].
  destruct (Ascii.eqb_spec a apos) as [->|Hp]; [reflexivity|].
  rewrite !replaceAll_other; try reflexivity; apply Ascii.eqb_neq; assumption.
Qed.

Lemma escapeXML_cons (a : ascii) (s : string) :
  escapeXML (String a s) = escapeChar a ++ escapeXML s.
Proof.
  change (String a s) with (str1 a ++ s).
  unfold escapeXML at 1. rewrite !replaceAll_app.
  fold (escapeXML (str1 a)). fold (escapeXML s).
  now rewrite escapeXML_char.
Qed.

Lemma escapeXML_chars (s : string) :
  escapeXML s = concat_strings (map escapeChar (list_ascii_of_string s)).
Proof.
  induction s as [|a s IH]; [reflexivity|].
  rewrite escapeXML_cons, IH. reflexivity.
Qed.

Lemma count_char_app (c : ascii) (a b : string) :
  count_char c (a ++ b) = (count_char c a + count_char c b)%nat.
Proof. induction a as [|x a IH]; simpl; [reflexivity|]. rewrite IH. lia. Qed.

Lemma noReserved_app (a b : string) :
  noReserved (a ++ b) = noReserved a && noReserved b.
Proof.
  induction a as [|x a IH]; simpl; [reflexivity|]. now rewrite IH, andb_assoc.
Qed.

Lemma noReserved_count (c : ascii) (s : string) :
  isReserved c = true -> noReserved s = true -> count_char c s = O.
Proof.
  intros Hc. induction s as [|a s IH]; simpl; [reflexivity|].
  intros H. apply andb_true_iff in H as [Ha Hs]. rewrite (IH Hs).
  destruct (Ascii.eqb_spec a c) as [->|_]; [|reflexivity].
  rewrite Hc in Ha. discriminate.
Qed.

Lemma escapeChar_count (c a : ascii) :
  c = lt \/ c = gt \/ c = quot \/ c = apos -> count_char c (escapeChar a) = O.
Proof.
  intros Hc. unfold escapeChar.
  destruct (Ascii.eqb_spec a amp) as [->|Ha];
    [destruct Hc as [->|[->|[->| ->]]]; reflexivity|].
  destruct (Ascii.eqb_spec a lt) as [->|Hl];
    [destruct Hc as [->|[->|[->| ->]]]; reflexivity|].
  destruct (Ascii.eqb_spec a gt) as [->|Hg];
    [destruct Hc as [->|[->|[->| ->]]]; reflexivity|].
  destruct (Ascii.eqb_spec a quot) as [->|Hq];
    [destruct Hc as [->|[->|[->| ->]]]; reflexivity|].
  destruct (Ascii.eqb_spec a apos) as [->|Hp];
    [destruct Hc as [->|[->|[->| ->]]]; reflexivity|].
  simpl. destruct (Ascii.eqb_spec a c) as [->|_]; [|reflexivity].
  destruct Hc as [->|[->|[->| ->]]]; contradiction.
Qed.

(** No [<], [>], double quote or apostrophe survives [escapeXML]. *)
Lemma escapeXML_count (c : ascii) (s : string) :
  c = lt \/ c = gt \/ c = quot \/ c = apos -> count_char c (escapeXML s) = O.
Proof.
  intros Hc. induction s as [|a s IH]; [reflexivity|].
  now rewrite escapeXML_cons, count_char_app, IH, escapeChar_count.
Qed.

Lemma eatLiteral_app_mono (lit s b x : string) :
  eatLiteral lit s = Some x -> eatLiteral lit (s ++ b) = Some (x ++ b).
Proof.
  revert s. induction lit as [|c lit IH]; intros s; simpl.
  - intros H. apply Some_inj in H. now subst.
  - destruct s as [|a s]; [discriminate|]. simpl.
    destruct (Ascii.eqb a c); [apply IH|discriminate].
Qed.

Lemma startsEntity_app (s b : string) :
  startsEntity s = true -> startsEntity (s ++ b) = true.
Proof.
  unfold startsEntity. generalize entityNames as names.
  induction names as [|n names IH]; simpl; [discriminate|].
  destruct (eatLiteral n s) as [x|] eqn:E.
  - intros _. now rewrite (eatLiteral_app_mono _ _ b _ E).
  - intros H. destruct (eatLiteral n (s ++ b)); [reflexivity|apply IH, H].
Qed.

Lemma ampersandsEscaped_app (a b : string) :
  ampersandsEscaped a = true -> ampersandsEscaped b = true ->
  ampersandsEscaped (a ++ b) = true.
Proof.
  intros Ha Hb. induction a as [|x a IH]; simpl; [exact Hb|].
  simpl in Ha. apply andb_true_iff in Ha as [Hx Ha].
  rewrite (IH Ha), andb_true_r.
  destruct (Ascii.eqb x amp); [apply startsEntity_app, Hx|reflexivity].
Qed.

Lemma noReserved_ampersands (s : string) :
  noReserved s = true -> ampersandsEscaped s = true.
Proof.
  induction s as [|a s IH]; simpl; [reflexivity|].
  intros H. apply andb_true_iff in H as [Ha Hs]. rewrite (IH Hs), andb_true_r.
  unfold isReserved in Ha.
  destruct (Ascii.eqb a amp); [discriminate|reflexivity].
Qed.

Lemma escapeChar_ampersands (a : ascii) : ampersandsEscaped (escapeChar a) = true.
Proof.
  unfold escapeChar.
  destruct (Ascii.eqb_spec a amp); [reflexivity|].
  destruct (Ascii.eqb a lt); [reflexivity|].
  destruct (Ascii.eqb a gt); [reflexivity|].
  destruct (Ascii.eqb a quot); [reflexivity|].
  destruct (Ascii.eqb a apos); [reflexivity|].
  simpl. destruct (Ascii.eqb_spec a amp); [contradiction|reflexivity].
Qed.

(** Every ampersand that [escapeXML] writes opens an entity. *)
Lemma escapeXML_ampersands (s : string) : ampersandsEscaped (escapeXML s) = true.
Proof.
  induction s as [|a s IH]; [reflexivity|].
  rewrite escapeXML_cons.
  apply ampersandsEscaped_app; [apply escapeChar_ampersands|exact IH].
Qed.

(** *** The unescaped insertions: numbers and dates *)

Lemma string_of_uint_noReserved (u : Decimal.uint) :
  noReserved (NilEmpty.string_of_uint u) = true.
Proof. induction u; simpl; try reflexivity; assumption. Qed.

Lemma intToString_noReserved (z : Z) : noReserved (intToString z) = true.
Proof.
  unfold intToString, NilZero.string_of_int, NilZero.string_of_uint.
  destruct (Z.to_int z) as [u|u]; destruct u; simpl; try reflexivity;
    apply string_of_uint_noReserved.
Qed.

Lemma repeatChar_zero_noReserved (n : nat) : noReserved (repeatChar n "0") = true.
Proof. induction n as [|n IH]; simpl; [reflexivity|exact IH]. Qed.

Lemma padStart_zero_noReserved (n : nat) (z : Z) :
  noReserved (padStart n "0" (intToString z)) = true.
Proof.
  unfold padStart.
  now rewrite noReserved_app, repeatChar_zero_noReserved, intToString_noReserved.
Qed.

Lemma nth_noReserved (l : list string) (d : string) (n : nat) :
  forallb noReserved l = true -> noReserved d = true -> noReserved (nth n l d) = true.
Proof.
  intros Hl Hd. destruct (nth_in_or_default n l d) as [H| ->]; [|exact Hd].
  rewrite forallb_forall in Hl. apply Hl, H.
Qed.

Lemma toUTCString_noReserved (d : Date) : noReserved (toUTCString d) = true.
Proof.
  destruct d as [tv|]; [|reflexivity]. unfold toUTCString, DayName, MonthName, pad2, pad4.
  rewrite !noReserved_app, !padStart_zero_noReserved.
  rewrite !nth_noReserved by reflexivity.
  destruct (0 <=? YearFromTime tv); reflexivity.
Qed.

(** *** The rendered feed *)

Lemma formatRSSDate_count (c : ascii) (d : Date) :
  isReserved c = true -> count_char c (formatRSSDate d) = O.
Proof. intros H. apply noReserved_count; [exact H|apply toUTCString_noReserved]. Qed.

Lemma intToString_count (c : ascii) (z : Z) :
  isReserved c = true -> count_char c (intToString z) = O.
Proof. intros H. apply noReserved_count; [exact H|apply intToString_noReserved]. Qed.

Ltac count_template :=
  rewrite ?count_char_app;
  rewrite ?escapeXML_count by tauto;
  rewrite ?formatRSSDate_count by reflexivity;
  rewrite ?intToString_count by reflexivity.

Lemma itemXML_count (item : RSSItem) :
  count_char lt (itemXML item) = 14%nat /\
  count_char gt (itemXML item) = 14%nat /\
  count_char quot (itemXML item) = 2%nat /\
  count_char apos (itemXML item) = 0%nat.
Proof. unfold itemXML. repeat split; count_template; reflexivity. Qed.

Lemma concat_items_count (c : ascii) (k : nat) (items : list RSSItem) :
  (forall item, count_char c (itemXML item) = k) ->
  count_char c (concat_strings (map itemXML items)) = (k * List.length items)%nat.
Proof.
  intros H. induction items as [|x items IH]; [simpl; lia|].
  cbn [map concat_strings List.length]. rewrite count_char_app, H, IH. lia.
Qed.

Lemma itemXML_ampersands (item : RSSItem) : ampersandsEscaped (itemXML item) = true.
Proof.
  unfold itemXML.
  repeat (apply ampersandsEscaped_app;
          [first [ apply escapeXML_ampersands
                 | apply noReserved_ampersands, toUTCString_noReserved
                 | reflexivity ]|]).
  reflexivity.
Qed.

Lemma concat_items_ampersands (items : list RSSItem) :
  ampersandsEscaped (concat_strings (map itemXML items)) = true.
Proof.
  induction items as [|x items IH]; [reflexivity|].
  cbn [map concat_strings].
  apply ampersandsEscaped_app; [apply itemXML_ampersands|exact IH].
Qed.

Lemma generateRSSXML_ampersands (meta : FeedMetadata) (items : list RSSItem) :
  ampersandsEscaped (generateRSSXML meta items) = true.
Proof.
  unfold generateRSSXML, formatRSSDate.
  repeat (apply ampersandsEscaped_app;
          [first [ apply escapeXML_ampersands
                 | apply concat_items_ampersands
                 | apply noReserved_ampersands, toUTCString_noReserved
                 | apply noReserved_ampersands, intToString_noReserved
                 | reflexivity ]|]).
  reflexivity.
Qed.

Lemma contains_field (ind a x b rest : string) :
  contains (a ++ x ++ b) ((ind ++ a) ++ x ++ b ++ rest).
Proof. exists ind, rest. rewrite !append_assoc. reflexivity. Qed.

Ltac peel_to lit :=
  repeat match goal with
         | |- contains _ (lit ++ _) => fail 1
         | |- contains _ (_ ++ _) => apply contains_app_l
         end.

Lemma itemXML_contains_fields (item : RSSItem) :
  contains ("<title>" ++ escapeXML (title item) ++ "</title>") (itemXML item) /\
  contains ("<description>" ++ escapeXML (description item) ++ "</description>")
    (itemXML item) /\
  contains ("<link>" ++ escapeXML (url item) ++ "</link>") (itemXML item) /\
  contains ("<author>" ++ escapeXML (author item) ++ "</author>") (itemXML item).
Proof.
  unfold itemXML. repeat split.
  - peel_to "      <title>". apply (contains_field "      " "<title>").
  - peel_to "      <description>". apply (contains_field "      " "<description>").
  - peel_to "      <link>". apply (contains_field "      " "<link>").
  - peel_to "      <author>". apply (contains_field "      " "<author>").
Qed.

Lemma generateRSSXML_contains_metadata (meta : FeedMetadata) (items : list RSSItem) :
  let out := generateRSSXML meta items in
  contains ("<title>" ++ escapeXML (meta_title meta) ++ "</title>") out /\
  contains ("<description>" ++ escapeXML (meta_description meta) ++ "</description>") out /\
  contains ("<link>" ++ escapeXML (siteUrl meta) ++ "</link>") out /\
  contains ("href=" ++ dq ++ escapeXML (feedUrl meta) ++ dq) out /\
  contains ("<language>" ++ escapeXML (language meta) ++ "</language>") out /\
  contains ("<managingEditor>" ++ escapeXML (managingEditor meta) ++ "</managingEditor>")
    out /\
  contains ("<webMaster>" ++ escapeXML (webMaster meta) ++ "</webMaster>") out /\
  contains ("<copyright>" ++ escapeXML (copyright meta) ++ "</copyright>") out /\
  contains ("<url>" ++ escapeXML (imageUrl meta) ++ "</url>") out.
Proof.
  cbv zeta. unfold generateRSSXML. repeat split.
  - peel_to "    <title>". apply (contains_field "    " "<title>").
  - peel_to "    <description>". apply (contains_field "    " "<description>").
  - peel_to "    <link>". apply (contains_field "    " "<link>").
  - peel_to "    <atom:link href=".
    eexists "    <atom:link ", _. rewrite !append_assoc. reflexivity.
  - peel_to "    <language>". apply (contains_field "    " "<language>").
  - peel_to "    <managingEditor>". apply (contains_field "    " "<managingEditor>").
  - peel_to "    <webMaster>". apply (contains_field "    " "<webMaster>").
  - peel_to "    <copyright>". apply (contains_field "    " "<copyright>").
  - peel_to "      <url>". apply (contains_field "      " "<url>").
Qed.

(** C2. Every text field reaches the rendered feed through [escapeXML],
    which writes each reserved character as its entity; the feed therefore
    holds exactly the [<], [>] and double quotes of its own markup, no
    apostrophe, and no ampersand that does not open an entity, whatever the
    fields contain. *)
Theorem generateRSSXML_escapes_reserved (meta : FeedMetadata) (items : list RSSItem) :
  let out := generateRSSXML meta items in
  (forall s, escapeXML s = concat_strings (map escapeChar (list_ascii_of_string s))) /\
  escapeXML (String amp (String lt (String gt (String quot (String apos EmptyString)))))
  = "&amp;&lt;&gt;&quot;&apos;" /\
  count_char lt out = (32 + 14 * List.length items)%nat /\
  count_char gt out = (32 + 14 * List.length items)%nat /\
  count_char quot out = (14 + 2 * List.length items)%nat /\
  count_char apos out = 0%nat /\
  ampersandsEscaped out = true /\
  (forall item, In item items ->
     contains ("<title>" ++ escapeXML (title item) ++ "</title>") out /\
     contains ("<description>" ++ escapeXML (description item) ++ "</description>") out /\
     contains ("<link>" ++ escapeXML (url item) ++ "</link>") out /\
     contains ("<author>" ++ escapeXML (author item) ++ "</author>") out) /\
  contains ("<title>" ++ escapeXML (meta_title meta) ++ "</title>") out /\
  contains ("<description>" ++ escapeXML (meta_description meta) ++ "</description>") out /\
  contains ("<link>" ++ escapeXML (siteUrl meta) ++ "</link>") out /\
  contains ("href=" ++ dq ++ escapeXML (feedUrl meta) ++ dq) out /\
  contains ("<language>" ++ escapeXML (language meta) ++ "</language>") out /\
  contains ("<managingEditor>" ++ escapeXML (managingEditor meta) ++ "</managingEditor>")
    out /\
  contains ("<webMaster>" ++ escapeXML (webMaster meta) ++ "</webMaster>") out /\
  contains ("<copyright>" ++ escapeXML (copyright meta) ++ "</copyright>") out /\
  contains ("<url>" ++ escapeXML (imageUrl meta) ++ "</url>") out.
Proof.
  cbv zeta.
  split; [exact escapeXML_chars|]. split; [reflexivity|].
  split; [|split; [|split; [|split]]].
  - unfold generateRSSXML. count_template.
    rewrite (concat_items_count lt 14 items (fun item => proj1 (itemXML_count item))).
    cbn. lia.
  - unfold generateRSSXML. count_template.
    rewrite (concat_items_count gt 14 items
               (fun item => proj1 (proj2 (itemXML_count item)))).
    cbn. lia.
  - unfold generateRSSXML. count_template.
    rewrite (concat_items_count quot 2 items
               (fun item => proj1 (proj2 (proj2 (itemXML_count item))))).
    cbn. lia.
  - unfold generateRSSXML. count_template.
    rewrite (concat_items_count apos 0 items
               (fun item => proj2 (proj2 (proj2 (itemXML_count item))))).
    cbn. lia.
  - split; [apply generateRSSXML_ampersands|].
    split.
    + intros item Hin.
      pose proof (generateRSSXML_contains_item meta items item Hin) as Hitem.
      destruct (itemXML_contains_fields item) as (H1 & H2 & H3 & H4).
      repeat split; eapply contains_trans; eassumption.
    + exact (generateRSSXML_contains_metadata meta items).
Qed.

Lemma generateRSSXML_escapes_reserved_witness :
  contains ("<title>" ++ escapeXML "Tom & <Jerry>" ++ "</title>")
    (generateRSSXML
       (handlerFeedMetadata (fixedTZ 0) sampleNow "ot" "ESV" (Some sampleStart) 1)
       [ {| title := "Tom & <Jerry>";
            description := "Day 1 of OT plan in ESV";
            url := "https://www.biblegateway.com/passage/?search=Genesis%201&version=ESV";
            author := "Bible Gateway";
            date := Some 1767311696000 |} ]%list).
Proof.
  destruct (generateRSSXML_escapes_reserved
              (handlerFeedMetadata (fixedTZ 0) sampleNow "ot" "ESV" (Some sampleStart) 1)
              [ {| title := "Tom & <Jerry>";
                   description := "Day 1 of OT plan in ESV";
                   url := "https://www.biblegateway.com/passage/?search=Genesis%201&version=ESV";
                   author := "Bible Gateway";
                   date := Some 1767311696000 |} ]%list)
    as (_ & _ & _ & _ & _ & _ & _ & H & _).
  exact (proj1 (H _ (or_introl eq_refl))).
Defined.

(* ------------------------------------------------------------------ *)
(** ** Sanitized values lie in the domain of the schedule theorems *)

Lemma SanitizePlan_valid (plan : string) :
  In (SanitizePlan plan) ["nt"; "ot"; "full"]%list.
Proof.
  unfold SanitizePlan.
  destruct (existsb (String.eqb plan) ["nt"; "ot"; "full"]%list) eqn:E.
  - apply existsb_exists in E as (x & Hin & Heq).
    apply String.eqb_eq in Heq. now subst x.
  - simpl. tauto.
Qed.

Lemma SanitizeDate_four_digit (off now : Z) (s : string) :
  - msPerDay < off < msPerDay ->
  fourDigitYear (LocalTime (fixedTZ off) now) ->
  exists t, SanitizeDate (fixedTZ off) now s = Some t /\
            fourDigitYear (LocalTime (fixedTZ off) t).
Proof.
  intros Hoff Hnow.
  destruct (acceptedDate s) as [[[y m] d]|] eqn:E.
  - destruct (proj1 (SanitizeDate_accepts_exactly_parts off now Hoff s) y m d E)
      as (Hs & Hrange).
    eexists. split; [exact Hs|].
    rewrite LocalTime_fixed_midnight. unfold fourDigitYear, msPerDay. lia.
  - exists now. split; [|exact Hnow].
    exact (proj2 (SanitizeDate_accepts_exactly_parts off now Hoff s) E).
Qed.

(* ------------------------------------------------------------------ *)
(** ** Accepted start dates do not depend on the zone *)

Lemma mapi_from_ext {A B : Type} (f g : A -> Z -> B) (l : list A) :
  (forall x i, f x i = g x i) -> forall i, mapi_from f i l = mapi_from g i l.
Proof.
  intros H. induction l as [|x l IH]; intros i; simpl; [reflexivity|].
  now rewrite H, IH.
Qed.

Lemma processChapter_fixed_zone (off1 off2 now : Z) (plan translation : string)
    (days : number) (n : Z) (chapter : BookChapter) (index : Z) :
  processChapter (fixedTZ off1) now plan translation days n chapter index
  = processChapter (fixedTZ off2) now plan translation days n chapter index.
Proof.
  unfold processChapter. f_equal. destruct days as [d|].
  - now rewrite !backdated_value, !UTC_fixed_back.
  - now rewrite !backdated_NaN.
Qed.

(** For a start date that [SanitizeDate] accepts, hosts in two zones of
    constant offset serve the same items. *)
Lemma accepted_date_items_zone_independent (off1 off2 now : Z)
    (full ot nt : list BookChapter) (plan translation s : string) (n : Z) :
  - msPerDay < off1 < msPerDay -> - msPerDay < off2 < msPerDay ->
  acceptedDate s <> None ->
  BuildRSSFeedItems (fixedTZ off1) now full ot nt plan translation
    (SanitizeDate (fixedTZ off1) now s) n
  = BuildRSSFeedItems (fixedTZ off2) now full ot nt plan translation
      (SanitizeDate (fixedTZ off2) now s) n.
Proof.
  intros H1 H2 Hacc.
  destruct (acceptedDate s) as [[[y m] d]|] eqn:E; [clear Hacc|contradiction].
  destruct (proj1 (SanitizeDate_accepts_exactly_parts off1 now H1 s) y m d E) as (Hs1 & _).
  destruct (proj1 (SanitizeDate_accepts_exactly_parts off2 now H2 s) y m d E) as (Hs2 & _).
  rewrite Hs1, Hs2.
  assert (Hdays : getDaysBetween (fixedTZ off1) now
                    (Some (days_from_civil y m d * msPerDay - off1))
                  = getDaysBetween (fixedTZ off2) now
                      (Some (days_from_civil y m d * msPerDay - off2))).
  { unfold getDaysBetween, getFullYear, getMonth, getDate, option_map.
    now rewrite !LocalTime_fixed_midnight. }
  unfold BuildRSSFeedItems. rewrite Hdays.
  destruct (bookListMap full ot nt plan) as [l| |].
  - apply (f_equal Some). unfold mapi. apply mapi_from_ext.
    intros. apply processChapter_fixed_zone.
  - exact eq_refl.
  - apply (f_equal Some). unfold mapi. apply mapi_from_ext.
    intros. apply processChapter_fixed_zone.
Qed.


(* ================================================================== *)
(** * Further properties of the worker *)

(* ------------------------------------------------------------------ *)
(** ** The route *)

Lemma splitSlash_join (s : string) :
  forall cur, joinSlash (splitSlash s cur) = cur ++ s.
Proof.
  induction s as [|c s IH]; intros cur; cbn [splitSlash].
  - cbn [joinSlash]. now rewrite append_empty_r.
  - destruct (Ascii.eqb_spec c "/") as [->|Hc].
    + specialize (IH EmptyString). cbn [joinSlash].
      destruct (splitSlash s EmptyString) as [|x r] eqn:E.
      * destruct s; cbn [splitSlash] in E; [discriminate|].
        destruct (Ascii.eqb a "/"); discriminate.
      * rewrite IH. reflexivity.
    + rewrite IH, append_assoc. reflexivity.
Qed.

Lemma noSlash_app (a b : string) : noSlash (a ++ b) = noSlash a && noSlash b.
Proof.
  induction a as [|x a IH]; simpl; [reflexivity|]. now rewrite IH, andb_assoc.
Qed.

Lemma splitSlash_noSlash (s : string) :
  forall cur, noSlash cur = true -> Forall (fun x => noSlash x = true) (splitSlash s cur).
Proof.
  induction s as [|c s IH]; intros cur Hcur; cbn [splitSlash].
  - constructor; [exact Hcur|constructor].
  - destruct (Ascii.eqb_spec c "/") as [->|Hc].
    + constructor; [exact Hcur|]. apply IH. reflexivity.
    + apply IH. rewrite noSlash_app, Hcur. simpl.
      destruct (Ascii.eqb_spec c "/"); [contradiction|reflexivity].
Qed.

Lemma splitSlash_segment (a rest : string) :
  noSlash a = true ->
  forall cur, splitSlash (a ++ String "/" rest) cur
              = cons (cur ++ a) (splitSlash rest EmptyString).
Proof.
  induction a as [|c a IH]; intros Ha cur.
  - simpl. now rewrite append_empty_r.
  - simpl in Ha. apply andb_true_iff in Ha as [Hc Ha].
    cbn [append splitSlash]. apply negb_true_iff in Hc. rewrite Hc.
    rewrite (IH Ha), append_assoc. reflexivity.
Qed.

Lemma splitSlash_last (a : string) :
  noSlash a = true -> forall cur, splitSlash a cur = cons (cur ++ a) nil.
Proof.
  induction a as [|c a IH]; intros Ha cur.
  - simpl. now rewrite append_empty_r.
  - simpl in Ha. apply andb_true_iff in Ha as [Hc Ha].
    cbn [splitSlash]. apply negb_true_iff in Hc. rewrite Hc.
    rewrite (IH Ha), append_assoc. reflexivity.
Qed.

Lemma isEmptyString_false (s : string) : isEmptyString s = false -> s <> EmptyString.
Proof. destruct s; [discriminate|intros _; discriminate]. Qed.

(** The route pattern reads a path as four segments exactly when the path is
    [/rssbible/p/t/d/c/feed.rss] with four segments that are not empty and
    hold no slash, and then it reads those four. *)
Theorem rssMatch_feedPath (pathname plan translation startDate chapters : string) :
  rssMatch pathname = Some (plan, translation, startDate, chapters) <->
  pathname = feedPath plan translation startDate chapters /\
  plan <> EmptyString /\ translation <> EmptyString /\
  startDate <> EmptyString /\ chapters <> EmptyString /\
  noSlash plan = true /\ noSlash translation = true /\
  noSlash startDate = true /\ noSlash chapters = true.
Proof.
  split.
  - unfold rssMatch. intros H.
    pose proof (splitSlash_join pathname EmptyString) as J.
    pose proof (splitSlash_noSlash pathname EmptyString eq_refl) as F.
    destruct (splitSlash pathname EmptyString) as [|e [|r [|p [|t [|d [|c [|f [|x l]]]]]]]];
      try discriminate.
    destruct (isEmptyString e) eqn:He; [|discriminate].
    destruct (String.eqb_spec r "rssbible") as [->|]; [|discriminate].
    destruct (String.eqb_spec f "feed.rss") as [->|]; [|discriminate].
    destruct (isEmptyString p) eqn:Hp; [discriminate|].
    destruct (isEmptyString t) eqn:Ht; [discriminate|].
    destruct (isEmptyString d) eqn:Hd; [discriminate|].
    destruct (isEmptyString c) eqn:Hc; [discriminate|].
    cbn [andb negb] in H. apply Some_inj in H.
    assert (p = plan /\ t = translation /\ d = startDate /\ c = chapters)
      as (-> & -> & -> & ->) by (repeat split; congruence).
    destruct e; [|discriminate].
    repeat match goal with
           | H : Forall _ (cons _ _) |- _ => inversion H; subst; clear H
           end.
    split; [symmetry; exact J|].
    repeat split; try assumption; apply isEmptyString_false; assumption.
  - intros (-> & Hp & Ht & Hd & Hc & Np & Nt & Nd & Nc).
    unfold rssMatch, feedPath.
    change ("/rssbible/" ++ plan ++ "/" ++ translation ++ "/" ++ startDate ++ "/"
            ++ chapters ++ "/feed.rss")
      with (EmptyString ++ String "/" ("rssbible" ++ String "/" (plan ++ String "/"
             (translation ++ String "/" (startDate ++ String "/"
               (chapters ++ String "/" "feed.rss")))))).
    rewrite !splitSlash_segment by (assumption || reflexivity).
    rewrite splitSlash_last by reflexivity.
    cbn [append isEmptyString String.eqb andb].
    destruct plan; [contradiction|]. destruct translation; [contradiction|].
    destruct startDate; [contradiction|]. destruct chapters; [contradiction|].
    reflexivity.
Qed.

Lemma rssMatch_feedPath_witness :
  rssMatch (feedPath "ot" "esv" "20260101" "1") = Some ("ot", "esv", "20260101", "1").
Proof.
  apply (proj2 (rssMatch_feedPath (feedPath "ot" "esv" "20260101" "1")
                  "ot" "esv" "20260101" "1")).
  repeat split; try reflexivity; discriminate.
Defined.

(* ------------------------------------------------------------------ *)
(** ** The resource cap and the handler *)

Lemma getDaysBetween_nonneg (tz : TimeZone) (now : Z) (d : Date) (days : Z) :
  getDaysBetween tz now d = Some days -> 0 <= days.
Proof.
  unfold getDaysBetween.
  destruct (Date_UTC (getUTCFullYear _) _ _) as [a|];
    destruct (Date_UTC (getFullYear _ _) _ _) as [b|];
    cbn [num_sub Math_abs Math_floor_div option_map]; try discriminate.
  intros H. apply Some_inj in H. subst days. lia.
Qed.

Lemma getDaysBetween_invalid (tz : TimeZone) (now : Z) :
  getDaysBetween tz now None = None.
Proof.
  unfold getDaysBetween. cbn [getFullYear getMonth getDate option_map Date_UTC].
  destruct (Date_UTC (getUTCFullYear _) _ _); reflexivity.
Qed.

Lemma slice0_length_le {A : Type} (l : list A) (e : number) :
  (List.length (slice0 l e) <= List.length l)%nat.
Proof. unfold slice0. rewrite length_firstn. lia. Qed.

Lemma slice0_zero {A : Type} (l : list A) : slice0 l (Some 0) = nil.
Proof.
  unfold slice0. cbn [Z.ltb Z.compare]. rewrite Z.min_l by lia. reflexivity.
Qed.

Lemma items_capped_at_1189 (tz : TimeZone) (now : Z)
    (full ot nt : list BookChapter) (plan translation : string)
    (startDate : Date) (n : Z) :
  bookListMap full ot nt plan <> InheritedProperty -> 0 <= n ->
  exists items,
    BuildRSSFeedItems tz now full ot nt plan translation startDate n = Some items /\
    (List.length items <= 1189)%nat /\
    (List.length items <= List.length (selectedCatalog full ot nt plan))%nat /\
    (n = 0 -> items = nil) /\
    (startDate = None -> items = nil).
Proof.
  intros Hp Hn. eexists. split; [apply BuildRSSFeedItems_eq, Hp|].
  unfold mapi. rewrite mapi_from_length.
  split; [|split; [apply slice0_length_le|split]].
  - destruct (getDaysBetween tz now startDate) as [days|] eqn:E.
    + pose proof (getDaysBetween_nonneg _ _ _ _ E) as H0.
      cbn [num_mul Math_min].
      pose proof (slice0_length (selectedCatalog full ot nt plan)
                    (Z.min (days * n) 1189) ltac:(nia)) as L.
      lia.
    + cbn [num_mul Math_min]. unfold slice0. simpl. lia.
  - intros ->. destruct (getDaysBetween tz now startDate) as [days|];
      cbn [num_mul Math_min].
    + rewrite Z.mul_0_r. change (Z.min 0 1189) with 0.
      now rewrite slice0_zero.
    + reflexivity.
  - intros ->. rewrite getDaysBetween_invalid. reflexivity.
Qed.

(** The cap does not rely on the sanitizers: whatever the start date, and
    for every number of chapters that is not negative, at most 1189 items
    are built, and none for zero chapters a day or for an invalid date. *)
Theorem BuildRSSFeedItems_resource_cap (tz : TimeZone) (now : Z)
    (full ot nt : list BookChapter) (plan translation : string)
    (startDate : Date) (n : Z) :
  bookListMap full ot nt plan <> InheritedProperty -> 0 <= n ->
  exists items,
    BuildRSSFeedItems tz now full ot nt plan translation startDate n = Some items /\
    (List.length items <= 1189)%nat /\
    (List.length items <= List.length (selectedCatalog full ot nt plan))%nat /\
    (n = 0 -> items = nil) /\
    (startDate = None -> items = nil).
Proof.
  exact (items_capped_at_1189 tz now full ot nt plan translation startDate n).
Qed.

Lemma BuildRSSFeedItems_resource_cap_witness :
  exists items,
    BuildRSSFeedItems (fixedTZ 0) sampleNow sampleFull sampleOT sampleNT
      "xyz" "ESV" (Some 0) 1000000 = Some items /\
    (List.length items <= 1189)%nat /\
    (List.length items
     <= List.length (selectedCatalog sampleFull sampleOT sampleNT "xyz"))%nat /\
    (1000000 = 0 -> items = nil) /\
    (Some 0 = None -> items = nil).
Proof.
  apply (BuildRSSFeedItems_resource_cap (fixedTZ 0) sampleNow
           sampleFull sampleOT sampleNT "xyz" "ESV" (Some 0) 1000000);
    [vm_compute; discriminate | lia].
Defined.

Lemma SanitizeChapters_range (s : string) : 1 <= SanitizeChapters s <= 99.
Proof.
  unfold SanitizeChapters.
  destruct (strlen s >? 2); [lia|].
  destruct (parseInt s 10) as [r|]; unfold isNaN, num_gt, num_lt; simpl; [|lia].
  destruct (Z.ltb_spec r 1); destruct (Z.ltb_spec 99 r); simpl; lia.
Qed.

Lemma sanitized_lookup_own (full ot nt : list BookChapter) (plan : string) :
  bookListMap full ot nt (SanitizePlan plan) <> InheritedProperty.
Proof.
  rewrite (sanitized_plan_lookup full ot nt _ (SanitizePlan_valid plan)). discriminate.
Qed.

(** The handler never fails: a path outside the route goes to the static
    assets, and a path of the route always gets a feed, with the fixed
    response headers, of at most 1189 items built from the sanitized
    segments. *)
Theorem fetch_always_answers (tz : TimeZone) (now : Z)
    (full ot nt : list BookChapter) (registry : list Translation) (pathname : string) :
  fetch tz now full ot nt registry pathname <> Uncaught /\
  (rssMatch pathname = None ->
   fetch tz now full ot nt registry pathname = StaticAsset) /\
  (forall plan translation startDate chapters,
     rssMatch pathname = Some (plan, translation, startDate, chapters) ->
     exists items,
       BuildRSSFeedItems tz now full ot nt (SanitizePlan plan)
         (SanitizeTranslation registry translation)
         (SanitizeDate tz now startDate) (SanitizeChapters chapters) = Some items /\
       (List.length items <= 1189)%nat /\
       fetch tz now full ot nt registry pathname
       = RssResponse
           (generateRSSXML
              (handlerFeedMetadata tz now (SanitizePlan plan)
                 (SanitizeTranslation registry translation)
                 (SanitizeDate tz now startDate) (SanitizeChapters chapters))
              items)
           [("Content-Type", "application/rss+xml");
            ("Cache-Control", "public, max-age=3600");
            ("X-Content-Type-Options", "nosniff");
            ("X-Frame-Options", "DENY")]%list).
Proof.
  assert (Hroute : forall plan translation startDate chapters,
     rssMatch pathname = Some (plan, translation, startDate, chapters) ->
     exists items,
       BuildRSSFeedItems tz now full ot nt (SanitizePlan plan)
         (SanitizeTranslation registry translation)
         (SanitizeDate tz now startDate) (SanitizeChapters chapters) = Some items /\
       (List.length items <= 1189)%nat /\
       fetch tz now full ot nt registry pathname
       = RssResponse
           (generateRSSXML
              (handlerFeedMetadata tz now (SanitizePlan plan)
                 (SanitizeTranslation registry translation)
                 (SanitizeDate tz now startDate) (SanitizeChapters chapters))
              items)
           responseHeaders).
  { intros plan translation startDate chapters Hm.
    destruct (items_capped_at_1189 tz now full ot nt (SanitizePlan plan)
                (SanitizeTranslation registry translation)
                (SanitizeDate tz now startDate) (SanitizeChapters chapters)
                (sanitized_lookup_own full ot nt plan)
                ltac:(pose proof (SanitizeChapters_range chapters); lia))
      as (items & Hb & Hcap & _).
    exists items. split; [exact Hb|]. split; [exact Hcap|].
    unfold fetch. rewrite Hm, Hb. reflexivity. }
  split; [|split].
  - destruct (rssMatch pathname) as [[[[p t] d] c]|] eqn:E.
    + destruct (Hroute p t d c eq_refl) as (items & _ & _ & ->). discriminate.
    + unfold fetch. rewrite E. discriminate.
  - intros E. unfold fetch. rewrite E. reflexivity.
  - exact Hroute.
Qed.

Lemma fetch_always_answers_witness :
  fetch (fixedTZ 0) sampleNow sampleFull sampleOT sampleNT sampleTranslations
    "/index.html" = StaticAsset.
Proof.
  apply (proj1 (proj2 (fetch_always_answers (fixedTZ 0) sampleNow sampleFull sampleOT
                         sampleNT sampleTranslations "/index.html"))).
  reflexivity.
Defined.

(* ------------------------------------------------------------------ *)
(** ** The sanitizers *)

(** [SanitizePlan] always answers one of the three plans, leaves a plan as
    it is, answers [full] for anything else, and sanitizing twice changes
    nothing. *)
Theorem SanitizePlan_closed (plan : string) :
  In (SanitizePlan plan) ["nt"; "ot"; "full"]%list /\
  (In plan ["nt"; "ot"; "full"]%list -> SanitizePlan plan = plan) /\
  (~ In plan ["nt"; "ot"; "full"]%list -> SanitizePlan plan = "full") /\
  SanitizePlan (SanitizePlan plan) = SanitizePlan plan.
Proof.
  assert (Hid : forall p, In p ["nt"; "ot"; "full"]%list -> SanitizePlan p = p)
    by (intros p [<-|[<-|[<-|[]]]]; reflexivity).
  split; [apply SanitizePlan_valid|]. split; [apply Hid|].
  split; [apply SanitizePlan_fallback|].
  apply Hid, SanitizePlan_valid.
Qed.

Lemma SanitizePlan_closed_witness :
  SanitizePlan "nt" = "nt" /\ SanitizePlan "NT" = "full".
Proof.
  split.
  - apply (proj1 (proj2 (SanitizePlan_closed "nt"))). simpl. tauto.
  - apply (proj1 (proj2 (proj2 (SanitizePlan_closed "NT")))).
    simpl. intros [H|[H|[H|[]]]]; discriminate H.
Defined.

Lemma upperChar_idempotent (c : ascii) : upperChar (upperChar c) = upperChar c.
Proof. destruct c as [[] [] [] [] [] [] [] []]; reflexivity. Qed.

Lemma toUpperCase_idempotent (s : string) :
  toUpperCase (toUpperCase s) = toUpperCase s.
Proof.
  induction s as [|c s IH]; simpl; [reflexivity|].
  now rewrite upperChar_idempotent, IH.
Qed.

Lemma find_code_some (registry : list Translation) (code : string) (found : Translation) :
  find (fun item => String.eqb (Code item) code) registry = Some found ->
  In found registry /\ Code found = code.
Proof.
  intros H. apply find_some in H as [Hin Heq]. split; [exact Hin|].
  now apply String.eqb_eq.
Qed.

Section Translations.

Variable translationsJSON : list Translation.

Local Notation sanitize := (SanitizeTranslation translationsJSON).

Lemma SanitizeTranslation_hit (translation : string) :
  In (toUpperCase translation) (map Code translationsJSON) ->
  sanitize translation = toUpperCase translation.
Proof.
  intros H. unfold SanitizeTranslation.
  destruct (find _ translationsJSON) as [found|] eqn:E.
  - exact (proj2 (find_code_some _ _ _ E)).
  - apply in_map_iff in H as (item & Hc & Hin).
    pose proof (find_none _ _ E item Hin) as Hn. cbv beta in Hn.
    rewrite Hc, String.eqb_refl in Hn. discriminate.
Qed.

Lemma SanitizeTranslation_miss (translation : string) :
  ~ In (toUpperCase translation) (map Code translationsJSON) ->
  sanitize translation = "ESV".
Proof.
  intros H. unfold SanitizeTranslation.
  destruct (find _ translationsJSON) as [found|] eqn:E; [|reflexivity].
  destruct (find_code_some _ _ _ E) as [Hin Hc].
  exfalso. apply H. rewrite <- Hc. now apply in_map.
Qed.

(** [SanitizeTranslation] answers the upper-case form of its argument when
    the registry lists it and ["ESV"] otherwise, whether or not the registry
    lists ["ESV"]; it does not tell the case of its argument; and sanitizing
    twice changes nothing. *)
Theorem SanitizeTranslation_canonical (translation : string) :
  (In (toUpperCase translation) (map Code translationsJSON) ->
   sanitize translation = toUpperCase translation) /\
  (~ In (toUpperCase translation) (map Code translationsJSON) ->
   sanitize translation = "ESV") /\
  (forall other, toUpperCase other = toUpperCase translation ->
     sanitize other = sanitize translation) /\
  sanitize (sanitize translation) = sanitize translation.
Proof.
  split; [apply SanitizeTranslation_hit|]. split; [apply SanitizeTranslation_miss|].
  split.
  - intros other H. unfold SanitizeTranslation. now rewrite H.
  - destruct (in_dec string_dec (toUpperCase translation) (map Code translationsJSON))
      as [Hin|Hout].
    + rewrite (SanitizeTranslation_hit translation Hin).
      rewrite (SanitizeTranslation_hit (toUpperCase translation));
        rewrite toUpperCase_idempotent; [reflexivity|exact Hin].
    + rewrite (SanitizeTranslation_miss translation Hout).
      destruct (in_dec string_dec (toUpperCase "ESV") (map Code translationsJSON))
        as [H|H].
      * exact (SanitizeTranslation_hit "ESV" H).
      * exact (SanitizeTranslation_miss "ESV" H).
Qed.

End Translations.

Lemma SanitizeTranslation_canonical_witness :
  SanitizeTranslation sampleTranslations "niv" = "NIV" /\
  SanitizeTranslation sampleTranslations "bogus" = "ESV".
Proof.
  split.
  - apply (proj1 (SanitizeTranslation_canonical sampleTranslations "niv")).
    simpl. tauto.
  - apply (proj1 (proj2 (SanitizeTranslation_canonical sampleTranslations "bogus"))).
    simpl. intros [H|[H|[H|[]]]]; discriminate H.
Defined.

Lemma SanitizeChapters_intToString_all :
  all_from 99 1 (fun n => SanitizeChapters (intToString n) =? n) = true.
Proof. vm_compute. reflexivity. Qed.

(** The decimal text of a number of chapters in 1..99 sanitizes to that
    number, so the chapters segment of a canonical link, written from the
    sanitized value, sanitizes to the same value. *)
Theorem SanitizeChapters_canonical (chapters : string) :
  (forall n, 1 <= n <= 99 -> SanitizeChapters (intToString n) = n) /\
  SanitizeChapters (intToString (SanitizeChapters chapters)) = SanitizeChapters chapters.
Proof.
  assert (H : forall n, 1 <= n <= 99 -> SanitizeChapters (intToString n) = n).
  { intros n Hn. apply Z.eqb_eq.
    exact (all_from_spec _ _ _ SanitizeChapters_intToString_all n ltac:(simpl; lia)). }
  split; [exact H|]. apply H, SanitizeChapters_range.
Qed.

Lemma SanitizeChapters_canonical_witness : SanitizeChapters (intToString 42) = 42.
Proof. apply (proj1 (SanitizeChapters_canonical "7") 42). lia. Defined.

(* ------------------------------------------------------------------ *)
(** ** The start date segment of a canonical link *)

Lemma canonicalDate_all :
  all_from 201 1900 (fun y =>
    all_from 12 1 (fun m => all_from 31 1 (canonicalDate_check y m))) = true.
Proof. vm_compute. reflexivity. Qed.

Lemma canonicalDate_ok (y m d : Z) :
  1900 <= y <= 2100 -> 1 <= m <= 12 -> 1 <= d <= 31 ->
  canonicalDate_check y m d = true.
Proof.
  intros Hy Hm Hd.
  pose proof (all_from_spec _ _ _ canonicalDate_all y ltac:(simpl; lia)) as H1.
  cbv beta in H1.
  pose proof (all_from_spec _ _ _ H1 m ltac:(simpl; lia)) as H2.
  cbv beta in H2.
  exact (all_from_spec _ _ _ H2 d ltac:(simpl; lia)).
Qed.

Lemma acceptedDate_inv (s : string) (y m d : Z) :
  acceptedDate s = Some (y, m, d) ->
  1900 <= y <= 2100 /\ 1 <= m <= 12 /\ 1 <= d <= 31 /\ d <= DaysInMonth y m.
Proof.
  unfold acceptedDate.
  destruct (strlen s =? 8); [|discriminate].
  destruct (parseInt (js_substring 0 4 s) 0) as [y'|]; [|discriminate].
  destruct (parseInt (js_substring 4 6 s) 0) as [m'|]; [|discriminate].
  destruct (parseInt (js_substring 6 8 s) 0) as [d'|]; [|discriminate].
  destruct (_ && _) eqn:R; [|discriminate].
  intros H. apply Some_inj in H.
  assert (y' = y /\ m' = m /\ d' = d) as (-> & -> & ->) by (repeat split; congruence).
  repeat (apply andb_true_iff in R as [R ?]). lia.
Qed.

Lemma acceptedDate_canonical (y m d : Z) :
  1900 <= y <= 2100 -> 1 <= m <= 12 -> 1 <= d <= 31 -> d <= DaysInMonth y m ->
  acceptedDate (canonicalDate y m d) = Some (y, m, d).
Proof.
  intros Hy Hm Hd Hdim.
  pose proof (canonicalDate_ok y m d Hy Hm Hd) as C.
  unfold canonicalDate_check in C. unfold acceptedDate.
  apply andb_true_iff in C as [Clen C]. rewrite Clen.
  destruct (parseInt (js_substring 0 4 _) 0) as [y'|]; [|discriminate].
  destruct (parseInt (js_substring 4 6 _) 0) as [m'|]; [|discriminate].
  destruct (parseInt (js_substring 6 8 _) 0) as [d'|]; [|discriminate].
  apply andb_true_iff in C as [C C3]. apply andb_true_iff in C as [C1 C2].
  assert (y' = y) by lia. assert (m' = m) by lia. assert (d' = d) by lia.
  subst y' m' d'.
  replace ((1900 <=? y) && (y <=? 2100) && (1 <=? m) && (m <=? 12)
           && (1 <=? d) && (d <=? 31) && (d <=? DaysInMonth y m)) with true by lia.
  reflexivity.
Qed.

Lemma formatDate_of_accepted (off now : Z) (s : string) (y m d : Z) :
  - msPerDay < off < msPerDay ->
  acceptedDate s = Some (y, m, d) ->
  formatDateToyyyyMMdd (fixedTZ off) (SanitizeDate (fixedTZ off) now s)
  = canonicalDate y m d.
Proof.
  intros Hoff E.
  destruct (acceptedDate_inv s y m d E) as (Hy & Hm & Hd & Hdim).
  destruct (proj1 (SanitizeDate_accepts_exactly_parts off now Hoff s) y m d E) as (-> & _).
  unfold formatDateToyyyyMMdd, getFullYear, getMonth, getDate, option_map.
  rewrite LocalTime_fixed_midnight.
  unfold YearFromTime, MonthFromTime, DateFromTime. rewrite Day_midnight.
  rewrite (proj1 (civil_from_days_from_civil y m d Hm Hd) Hdim).
  replace (1 + (m - 1)) with m by lia. reflexivity.
Qed.

(** On a host whose zone keeps a constant offset, the text that
    [formatDateToyyyyMMdd] writes for an accepted start date has eight
    characters and sanitizes to the same date: the start date survives the
    trip through a link. *)
Theorem SanitizeDate_format_round_trip (off now : Z) (s : string) :
  - msPerDay < off < msPerDay ->
  acceptedDate s <> None ->
  strlen (formatDateToyyyyMMdd (fixedTZ off) (SanitizeDate (fixedTZ off) now s)) = 8 /\
  SanitizeDate (fixedTZ off) now
    (formatDateToyyyyMMdd (fixedTZ off) (SanitizeDate (fixedTZ off) now s))
  = SanitizeDate (fixedTZ off) now s.
Proof.
  intros Hoff Hacc.
  destruct (acceptedDate s) as [[[y m] d]|] eqn:E; [clear Hacc|contradiction].
  destruct (acceptedDate_inv s y m d E) as (Hy & Hm & Hd & Hdim).
  rewrite (formatDate_of_accepted off now s y m d Hoff E).
  split.
  - pose proof (canonicalDate_ok y m d Hy Hm Hd) as C.
    unfold canonicalDate_check in C. apply andb_true_iff in C as [C _]. lia.
  - pose proof (acceptedDate_canonical y m d Hy Hm Hd Hdim) as E'.
    destruct (proj1 (SanitizeDate_accepts_exactly_parts off now Hoff _) y m d E')
      as (-> & _).
    destruct (proj1 (SanitizeDate_accepts_exactly_parts off now Hoff s) y m d E)
      as (-> & _).
    reflexivity.
Qed.

Lemma SanitizeDate_format_round_trip_witness :
  strlen (formatDateToyyyyMMdd (fixedTZ 3600000)
            (SanitizeDate (fixedTZ 3600000) sampleNow "2024 229")) = 8 /\
  SanitizeDate (fixedTZ 3600000) sampleNow
    (formatDateToyyyyMMdd (fixedTZ 3600000)
       (SanitizeDate (fixedTZ 3600000) sampleNow "2024 229"))
  = SanitizeDate (fixedTZ 3600000) sampleNow "2024 229".
Proof.
  apply (SanitizeDate_format_round_trip 3600000 sampleNow "2024 229");
    [unfold msPerDay; lia | vm_compute; discriminate].
Defined.

(* ------------------------------------------------------------------ *)
(** ** Sanitizers and schedule engine together *)

(** Whatever the four raw segments are, on a host whose zone keeps a
    constant offset the sanitized values give a feed of exactly
    [min(elapsedDays * chaptersPerDay, 1189, catalog length)] items. *)
Theorem sanitized_request_item_count (off now : Z)
    (full ot nt : list BookChapter) (registry : list Translation)
    (plan translation startDate chapters : string) :
  - msPerDay < off < msPerDay ->
  fourDigitYear now -> fourDigitYear (LocalTime (fixedTZ off) now) ->
  exists start days items,
    SanitizeDate (fixedTZ off) now startDate = Some start /\
    getDaysBetween (fixedTZ off) now (Some start) = Some days /\
    BuildRSSFeedItems (fixedTZ off) now full ot nt (SanitizePlan plan)
      (SanitizeTranslation registry translation) (Some start)
      (SanitizeChapters chapters) = Some items /\
    Z.of_nat (List.length items)
    = Z.min (Z.min (days * SanitizeChapters chapters) 1189)
        (Z.of_nat (List.length (selectedCatalog full ot nt (SanitizePlan plan)))).
Proof.
  intros Hoff Hnow Hlocal.
  destruct (SanitizeDate_four_digit off now startDate Hoff Hlocal) as (start & Hs & Hfd).
  destruct (BuildRSSFeedItems_length (fixedTZ off) now full ot nt (SanitizePlan plan)
              (SanitizeTranslation registry translation) start (SanitizeChapters chapters)
              (SanitizePlan_valid plan) (SanitizeChapters_range chapters) Hnow Hfd)
    as (days & items & Hd & _ & Hb & Hlen).
  exists start, days, items. repeat split; assumption.
Qed.

Lemma sanitized_request_item_count_witness :
  exists start days items,
    SanitizeDate (fixedTZ 0) sampleNow "not-a-date" = Some start /\
    getDaysBetween (fixedTZ 0) sampleNow (Some start) = Some days /\
    BuildRSSFeedItems (fixedTZ 0) sampleNow sampleFull sampleOT sampleNT
      (SanitizePlan "constructor") (SanitizeTranslation sampleTranslations "kjv")
      (Some start) (SanitizeChapters "0") = Some items /\
    Z.of_nat (List.length items)
    = Z.min (Z.min (days * SanitizeChapters "0") 1189)
        (Z.of_nat (List.length
           (selectedCatalog sampleFull sampleOT sampleNT (SanitizePlan "constructor")))).
Proof.
  apply (sanitized_request_item_count 0 sampleNow sampleFull sampleOT sampleNT
           sampleTranslations "constructor" "kjv" "not-a-date" "0");
    [unfold msPerDay; lia | apply sample_instants_four_digit
     | unfold fourDigitYear; vm_compute; intuition discriminate].
Defined.

(* ------------------------------------------------------------------ *)
(** ** Order of the items *)

Lemma mapi_from_map {A B C : Type} (f : A -> Z -> B) (g : B -> C) (h : A -> C)
    (l : list A) :
  (forall x i, g (f x i) = h x) -> forall i, map g (mapi_from f i l) = map h l.
Proof.
  intros H. induction l as [|x l IH]; intros i; simpl; [reflexivity|].
  now rewrite H, IH.
Qed.

Lemma firstn_length_firstn {A : Type} (k : nat) (l : list A) :
  firstn (List.length (firstn k l)) l = firstn k l.
Proof.
  rewrite length_firstn.
  destruct (Nat.le_ge_cases k (List.length l)) as [H|H].
  - now rewrite Nat.min_l.
  - rewrite Nat.min_r by exact H. rewrite firstn_all. symmetry.
    now apply firstn_all2.
Qed.

Lemma items_follow_catalog (tz : TimeZone) (now : Z)
    (full ot nt : list BookChapter) (plan translation : string)
    (startDate : Date) (n : Z) (items : list RSSItem) :
  BuildRSSFeedItems tz now full ot nt plan translation startDate n = Some items ->
  map title items
  = map chapterTitle (firstn (List.length items) (selectedCatalog full ot nt plan)) /\
  map url items
  = map (fun chapter => BuildBibleGatewayURL (Book chapter) (Chapter chapter) translation)
      (firstn (List.length items) (selectedCatalog full ot nt plan)).
Proof.
  intros Hb.
  assert (Hp : bookListMap full ot nt plan <> InheritedProperty).
  { intros E. unfold BuildRSSFeedItems in Hb. rewrite E in Hb. discriminate. }
  pose proof (BuildRSSFeedItems_eq tz now full ot nt plan translation startDate n Hp) as E.
  rewrite Hb in E. apply Some_inj in E. subst items.
  unfold mapi. rewrite mapi_from_length. unfold slice0.
  rewrite firstn_length_firstn.
  split; apply mapi_from_map; intros; reflexivity.
Qed.

(** Slicing never skips or reorders: the titles and links of the items are
    those of the first catalog entries, as many as there are items, in
    catalog order. *)
Theorem BuildRSSFeedItems_catalog_prefix (tz : TimeZone) (now : Z)
    (full ot nt : list BookChapter) (plan translation : string)
    (startDate : Date) (n : Z) (items : list RSSItem) :
  BuildRSSFeedItems tz now full ot nt plan translation startDate n = Some items ->
  map title items
  = map chapterTitle (firstn (List.length items) (selectedCatalog full ot nt plan)) /\
  map url items
  = map (fun chapter => BuildBibleGatewayURL (Book chapter) (Chapter chapter) translation)
      (firstn (List.length items) (selectedCatalog full ot nt plan)).
Proof.
  exact (items_follow_catalog tz now full ot nt plan translation startDate n items).
Qed.

Lemma BuildRSSFeedItems_catalog_prefix_witness :
  map title
    [ {| title := "Genesis 1";
         description := "Day 1 of OT plan in ESV";
         url := "https://www.biblegateway.com/passage/?search=Genesis%201&version=ESV";
         author := "Bible Gateway";
         date := Some 1767311696000 |} ]%list
  = map chapterTitle (firstn 1 (selectedCatalog sampleFull sampleOT sampleNT "ot")).
Proof.
  refine (proj1 (BuildRSSFeedItems_catalog_prefix (fixedTZ 0) sampleNow
                   sampleFull sampleOT sampleNT "ot" "ESV" (Some sampleStart) 1 _ _)).
  vm_compute. reflexivity.
Defined.

(** More chapters a day never gives fewer items, and the feed of the slower
    plan is the beginning of the feed of the faster one, title by title. *)
Theorem BuildRSSFeedItems_monotone (tz : TimeZone) (now : Z)
    (full ot nt : list BookChapter) (plan translation : string)
    (startDate : Date) (n n' : Z) :
  bookListMap full ot nt plan <> InheritedProperty ->
  0 <= n <= n' ->
  exists items items',
    BuildRSSFeedItems tz now full ot nt plan translation startDate n = Some items /\
    BuildRSSFeedItems tz now full ot nt plan translation startDate n' = Some items' /\
    (List.length items <= List.length items')%nat /\
    map title items = firstn (List.length items) (map title items').
Proof.
  intros Hp Hn.
  destruct (items_capped_at_1189 tz now full ot nt plan translation
              startDate n Hp ltac:(lia)) as (items & Hb & _).
  destruct (items_capped_at_1189 tz now full ot nt plan translation
              startDate n' Hp ltac:(lia)) as (items' & Hb' & _).
  exists items, items'. split; [exact Hb|]. split; [exact Hb'|].
  assert (Hlen : (List.length items <= List.length items')%nat).
  { pose proof (BuildRSSFeedItems_eq tz now full ot nt plan translation startDate n Hp) as E.
    pose proof (BuildRSSFeedItems_eq tz now full ot nt plan translation startDate n' Hp) as E'.
    rewrite Hb in E. rewrite Hb' in E'. apply Some_inj in E. apply Some_inj in E'.
    subst items items'. unfold mapi. rewrite !mapi_from_length.
    destruct (getDaysBetween tz now startDate) as [days|] eqn:D.
    - pose proof (getDaysBetween_nonneg _ _ _ _ D) as H0.
      cbn [num_mul Math_min].
      pose proof (slice0_length (selectedCatalog full ot nt plan)
                    (Z.min (days * n) 1189) ltac:(nia)) as L.
      pose proof (slice0_length (selectedCatalog full ot nt plan)
                    (Z.min (days * n') 1189) ltac:(nia)) as L'.
      assert (days * n <= days * n') by nia. lia.
    - cbn [num_mul Math_min]. unfold slice0. simpl. lia. }
  split; [exact Hlen|].
  rewrite (proj1 (items_follow_catalog _ _ _ _ _ _ _ _ _ _ Hb)).
  rewrite (proj1 (items_follow_catalog _ _ _ _ _ _ _ _ _ _ Hb')).
  rewrite <- firstn_map, <- firstn_map, firstn_firstn.
  now rewrite Nat.min_l.
Qed.

Lemma BuildRSSFeedItems_monotone_witness :
  exists items items',
    BuildRSSFeedItems (fixedTZ 0) sampleNow sampleFull sampleOT sampleNT
      "full" "ESV" (Some sampleStart) 2 = Some items /\
    BuildRSSFeedItems (fixedTZ 0) sampleNow sampleFull sampleOT sampleNT
      "full" "ESV" (Some sampleStart) 5 = Some items' /\
    (List.length items <= List.length items')%nat /\
    map title items = firstn (List.length items) (map title items').
Proof.
  apply (BuildRSSFeedItems_monotone (fixedTZ 0) sampleNow sampleFull sampleOT sampleNT
           "full" "ESV" (Some sampleStart) 2 5); [vm_compute; discriminate | lia].
Defined.

(* ------------------------------------------------------------------ *)
(** ** Publish dates on a host of constant offset *)

Lemma Math_ceil_div_mono (a b n : Z) :
  1 <= n -> a <= b -> Math_ceil_div a n <= Math_ceil_div b n.
Proof.
  intros Hn Hab.
  pose proof (Math_ceil_div_spec a n Hn). pose proof (Math_ceil_div_spec b n Hn). nia.
Qed.

Section PublishOrder.

Variable off : Z.
Variable now : Z.
Variables fullBookList otBookList ntBookList : list BookChapter.
Variables plan translation : string.
Variables t n : Z.
Variable items : list RSSItem.

Hypothesis Hplan : In plan ["nt"; "ot"; "full"]%list.
Hypothesis Hn : 1 <= n <= 99.
Hypothesis Hnow : fourDigitYear now.
Hypothesis Hstart : fourDigitYear (LocalTime (fixedTZ off) t).
Hypothesis Hitems :
  BuildRSSFeedItems (fixedTZ off) now fullBookList otBookList ntBookList
    plan translation (Some t) n = Some items.

Local Notation days := (Z.abs (Day now - Day (LocalTime (fixedTZ off) t))).

Lemma item_date_fixed (i : nat) (item : RSSItem) :
  nth_error items i = Some item ->
  1 <= Math_ceil_div (Z.of_nat i + 1) n <= days /\
  date item
  = Some (now - (1 + (days - Math_ceil_div (Z.of_nat i + 1) n)) * msPerDay).
Proof.
  intros Hi.
  destruct (BuildRSSFeedItems_length (fixedTZ off) now fullBookList otBookList
              ntBookList plan translation t n Hplan Hn Hnow Hstart)
    as (d & items' & Hd & Hd0 & Hb' & Hlen).
  rewrite (getDaysBetween_valid _ _ _ Hnow Hstart) in Hd. apply Some_inj in Hd. subst d.
  rewrite Hitems in Hb'. apply Some_inj in Hb'. subst items'.
  destruct (BuildRSSFeedItems_nth (fixedTZ off) now fullBookList otBookList ntBookList
              plan translation (Some t) n items i item)
    as (chapter & Hc & Hitem); try assumption.
  { rewrite (sanitized_plan_lookup _ _ _ plan Hplan). discriminate. }
  rewrite (getDaysBetween_valid _ _ _ Hnow Hstart) in Hitem.
  assert (Hlt : Z.of_nat i < Z.of_nat (List.length items)).
  { apply inj_lt. apply nth_error_Some. rewrite Hi. discriminate. }
  pose proof (Math_ceil_div_spec (Z.of_nat i + 1) n ltac:(lia)) as Hceil.
  assert (Hdn : 1 <= Math_ceil_div (Z.of_nat i + 1) n <= days) by nia.
  split; [exact Hdn|].
  rewrite Hitem, processChapter_date, UTC_fixed_back.
  unfold TimeClip.
  destruct (Z.leb_spec
              (Z.abs (now - (1 + (days - Math_ceil_div (Z.of_nat i + 1) n)) * msPerDay))
              8640000000000000) as [_|Hbad]; [reflexivity|].
  exfalso. unfold fourDigitYear in Hnow, Hstart.
  assert (Hdays : days <= 3615899) by (unfold Day, msPerDay; lia).
  unfold msPerDay in Hbad. lia.
Qed.

(** On a host whose zone keeps a constant offset, every item of a feed
    carries a valid date that lies a whole number of days, and at least one
    day, before the current instant; the dates never decrease along the
    feed; and when neither the cap nor the catalog cuts the feed, its last
    item is dated exactly one day before the current instant. *)
Theorem publish_dates_chronological :
  (forall i item, nth_error items i = Some item ->
     exists k, 1 <= k <= days /\ date item = Some (now - k * msPerDay)) /\
  (forall i j a b ta tb, (i <= j)%nat ->
     nth_error items i = Some a -> nth_error items j = Some b ->
     date a = Some ta -> date b = Some tb -> ta <= tb) /\
  (forall item, Z.of_nat (List.length items) = days * n ->
     nth_error items (List.length items - 1) = Some item ->
     date item = Some (now - msPerDay)).
Proof.
  split; [|split].
  - intros i item Hi. destruct (item_date_fixed i item Hi) as (Hdn & Hdate).
    exists (1 + (days - Math_ceil_div (Z.of_nat i + 1) n)). split; [lia|exact Hdate].
  - intros i j a b ta tb Hij Ha Hb Hta Htb.
    destruct (item_date_fixed i a Ha) as (_ & Ea).
    destruct (item_date_fixed j b Hb) as (_ & Eb).
    rewrite Ea in Hta. rewrite Eb in Htb.
    apply Some_inj in Hta. apply Some_inj in Htb. subst ta tb.
    pose proof (Math_ceil_div_mono (Z.of_nat i + 1) (Z.of_nat j + 1) n ltac:(lia)
                  ltac:(lia)) as M.
    unfold msPerDay. lia.
  - intros item Hlen Hi. destruct (item_date_fixed _ item Hi) as (Hdn & Hdate).
    assert (Hpos : (0 < List.length items)%nat).
    { destruct items; [destruct (List.length nil - 1)%nat; discriminate Hi|simpl; lia]. }
    pose proof (Math_ceil_div_spec (Z.of_nat (List.length items - 1) + 1) n ltac:(lia))
      as Hceil.
    replace (Z.of_nat (List.length items - 1) + 1) with (days * n) in * by lia.
    assert (Math_ceil_div (days * n) n = days) by nia.
    rewrite Hdate. f_equal. lia.
Qed.

End PublishOrder.

Lemma publish_dates_chronological_witness :
  exists k,
    1 <= k <= Z.abs (Day sampleNow - Day (LocalTime (fixedTZ 0) sampleStart)) /\
    date {| title := "Genesis 1";
            description := "Day 1 of OT plan in ESV";
            url := "https://www.biblegateway.com/passage/?search=Genesis%201&version=ESV";
            author := "Bible Gateway";
            date := Some 1767311696000 |}
    = Some (sampleNow - k * msPerDay).
Proof.
  refine (proj1 (publish_dates_chronological 0 sampleNow sampleFull sampleOT
                   sampleNT "ot" "ESV" sampleStart 1 _ _ _ _ _ _) 0%nat _ _);
    [simpl; tauto | lia | apply sample_instants_four_digit
     | apply sample_instants_four_digit | vm_compute; reflexivity | reflexivity].
Defined.

(* ------------------------------------------------------------------ *)
(** ** [escapeXML] loses nothing *)

Lemma escapeXML_app (a b : string) :
  escapeXML (a ++ b) = escapeXML a ++ escapeXML b.
Proof. unfold escapeXML. now rewrite !replaceAll_app. Qed.

Lemma unescapeXML_escapeChar (a : ascii) (r : string) :
  unescapeXML_from 0 (escapeChar a ++ r) = String a (unescapeXML_from 0 r).
Proof.
  unfold escapeChar.
  destruct (Ascii.eqb_spec a amp) as [->|Ha]; [reflexivity|].
  destruct (Ascii.eqb_spec a lt) as [->|Hl]; [reflexivity|].
  destruct (Ascii.eqb_spec a gt) as [->|Hg]; [reflexivity|].
  destruct (Ascii.eqb_spec a quot) as [->|Hq]; [reflexivity|].
  destruct (Ascii.eqb_spec a apos) as [->|Hp]; [reflexivity|].
  cbn [str1 append unescapeXML_from].
  destruct (Ascii.eqb_spec a amp); [contradiction|reflexivity].
Qed.

Lemma escapeXML_identity (s : string) : noReserved s = true -> escapeXML s = s.
Proof.
  induction s as [|a s IH]; [reflexivity|].
  cbn [noReserved]. intros H. apply andb_true_iff in H as [Ha Hs].
  rewrite escapeXML_cons, (IH Hs). unfold escapeChar.
  unfold isReserved in Ha. apply negb_true_iff in Ha.
  repeat (apply orb_false_iff in Ha as [Ha ?]).
  now rewrite Ha, H2, H1, H0, H.
Qed.

(** [escapeXML] works character by character, leaves a text without
    reserved character as it is, and loses nothing: a reader that reads the
    five entities back gets the text it was given, so two texts are never
    rendered alike. *)
Theorem escapeXML_round_trip (s : string) :
  unescapeXML (escapeXML s) = s /\
  (forall other, escapeXML other = escapeXML s -> other = s) /\
  (forall a b, escapeXML (a ++ b) = escapeXML a ++ escapeXML b) /\
  (noReserved s = true -> escapeXML s = s).
Proof.
  assert (R : forall x, unescapeXML (escapeXML x) = x).
  { unfold unescapeXML. induction x as [|a x IH]; [reflexivity|].
    now rewrite escapeXML_cons, unescapeXML_escapeChar, IH. }
  split; [apply R|]. split; [|split; [apply escapeXML_app|apply escapeXML_identity]].
  intros other H. rewrite <- (R other), H. apply R.
Qed.

Lemma escapeXML_round_trip_witness : escapeXML "Genesis 1" = "Genesis 1".
Proof.
  apply (proj2 (proj2 (proj2 (escapeXML_round_trip "Genesis 1")))). reflexivity.
Defined.

(* ------------------------------------------------------------------ *)
(** ** Links *)

Lemma allChars_app (p : ascii -> bool) (a b : string) :
  allChars p (a ++ b) = allChars p a && allChars p b.
Proof.
  induction a as [|x a IH]; simpl; [reflexivity|]. now rewrite IH, andb_assoc.
Qed.

Lemma allChars_count (p : ascii -> bool) (c : ascii) (s : string) :
  p c = false -> allChars p s = true -> count_char c s = O.
Proof.
  intros Hc. induction s as [|a s IH]; simpl; [reflexivity|].
  intros H. apply andb_true_iff in H as [Ha Hs]. rewrite (IH Hs).
  destruct (Ascii.eqb_spec a c) as [->|_]; [|reflexivity].
  rewrite Hc in Ha. discriminate.
Qed.

Lemma encodeURIChar_safe (c : ascii) : allChars isURISafe (encodeURIChar c) = true.
Proof. destruct c as [[] [] [] [] [] [] [] []]; reflexivity. Qed.

Lemma encodeURIComponent_safe (s : string) :
  allChars isURISafe (encodeURIComponent s) = true.
Proof.
  induction s as [|c s IH]; [reflexivity|].
  cbn [encodeURIComponent]. now rewrite allChars_app, encodeURIChar_safe, IH.
Qed.

Lemma encodeURIComponent_unreserved (s : string) :
  allChars isUnreservedURI s = true -> encodeURIComponent s = s.
Proof.
  induction s as [|c s IH]; [reflexivity|].
  cbn [allChars encodeURIComponent]. intros H. apply andb_true_iff in H as [Hc Hs].
  rewrite (IH Hs). unfold encodeURIChar. now rewrite Hc.
Qed.

Lemma string_of_uint_safe (u : Decimal.uint) :
  allChars isURISafe (NilEmpty.string_of_uint u) = true.
Proof. induction u; simpl; try reflexivity; assumption. Qed.

Lemma intToString_safe (z : Z) : allChars isURISafe (intToString z) = true.
Proof.
  unfold intToString, NilZero.string_of_int, NilZero.string_of_uint.
  destruct (Z.to_int z) as [u|u]; destruct u; simpl; try reflexivity;
    apply string_of_uint_safe.
Qed.

(** [encodeURIComponent] writes only unreserved characters and percent
    signs and leaves a text of unreserved characters as it is; so in a link
    of [BuildBibleGatewayURL] a character that separates the parts of a URL
    (such as [&], [=], [?], [#], [/] or a space) comes from the fixed
    endpoint, from ["&version="] or from the translation code, never from
    the book name or the chapter number. *)
Theorem BuildBibleGatewayURL_book_is_encoded (book translation : string) (chapter : Z) :
  allChars isURISafe (encodeURIComponent book) = true /\
  (allChars isUnreservedURI book = true -> encodeURIComponent book = book) /\
  (forall c, isURISafe c = false ->
     count_char c (BuildBibleGatewayURL book chapter translation)
     = (count_char c bibleGatewaySlug + count_char c "&version="
        + count_char c translation)%nat).
Proof.
  split; [apply encodeURIComponent_safe|].
  split; [apply encodeURIComponent_unreserved|].
  intros c Hc. unfold BuildBibleGatewayURL. rewrite !count_char_app.
  rewrite (allChars_count isURISafe c _ Hc (encodeURIComponent_safe book)).
  rewrite (allChars_count isURISafe c _ Hc (intToString_safe chapter)).
  rewrite (allChars_count isURISafe c "%20" Hc eq_refl). lia.
Qed.

Lemma BuildBibleGatewayURL_book_is_encoded_witness :
  count_char "&" (BuildBibleGatewayURL "Tom & Jerry?x=1" 3 "ESV") = 1%nat.
Proof.
  apply (proj2 (proj2 (BuildBibleGatewayURL_book_is_encoded "Tom & Jerry?x=1" "ESV" 3))
           "&"%char).
  reflexivity.
Defined.

(* ------------------------------------------------------------------ *)
(** ** The item counter of the test suite *)

Lemma countMatches_no_lt (a b : string) :
  count_char lt a = O ->
  countMatches "<item>" 0 (a ++ b) = countMatches "<item>" 0 b.
Proof.
  induction a as [|c a IH]; [reflexivity|].
  cbn [count_char]. intros H.
  destruct (Ascii.eqb_spec c lt) as [->|Hc]; [discriminate|].
  cbn [append countMatches eatLiteral].
  destruct (Ascii.eqb_spec c "<") as [->|_]; [contradiction|].
  apply IH. simpl in H. exact H.
Qed.

Ltac count_tags :=
  repeat first
    [ rewrite countMatches_no_lt by
        first [ apply escapeXML_count; tauto
              | apply formatRSSDate_count; reflexivity
              | apply intToString_count; reflexivity ]
    | progress cbn -[escapeXML formatRSSDate intToString concat_strings map itemXML] ].

Lemma itemXML_count_tags (item : RSSItem) (rest : string) :
  countMatches "<item>" 0 (itemXML item ++ rest)
  = S (countMatches "<item>" 0 rest).
Proof.
  unfold itemXML. rewrite !append_assoc. count_tags. reflexivity.
Qed.

Lemma concat_items_count_tags (items : list RSSItem) (rest : string) :
  countMatches "<item>" 0 (concat_strings (map itemXML items) ++ rest)
  = (List.length items + countMatches "<item>" 0 rest)%nat.
Proof.
  induction items as [|x items IH]; [reflexivity|].
  cbn [map concat_strings List.length].
  rewrite append_assoc, itemXML_count_tags, IH. reflexivity.
Qed.

Lemma item_tags_counted (meta : FeedMetadata) (items : list RSSItem) :
  getRSSItemCount (generateRSSXML meta items) = List.length items.
Proof.
  unfold getRSSItemCount, generateRSSXML. count_tags.
  rewrite concat_items_count_tags. count_tags. lia.
Qed.

(** The item counter of the test suite, run on a rendered feed, answers the
    number of items given to [generateRSSXML], whatever the fields hold: no
    field can add or hide an item. *)
Theorem getRSSItemCount_generateRSSXML (meta : FeedMetadata) (items : list RSSItem) :
  getRSSItemCount (generateRSSXML meta items) = List.length items.
Proof. exact (item_tags_counted meta items). Qed.

(* ------------------------------------------------------------------ *)
(** ** Links as they are rendered *)

Lemma intToString_escapeXML (z : Z) : escapeXML (intToString z) = intToString z.
Proof. apply escapeXML_identity, intToString_noReserved. Qed.

(** In the rendered feed the link of an item is the endpoint, the encoded
    book name (where only an apostrophe can still need an entity), ["%20"],
    the chapter number, ["&amp;version="] and the escaped translation code;
    every item of the feed carries that link in its [link] element. *)
Theorem rendered_link (tz : TimeZone) (now : Z)
    (full ot nt : list BookChapter) (plan translation : string)
    (startDate : Date) (n : Z) (items : list RSSItem) (meta : FeedMetadata) :
  BuildRSSFeedItems tz now full ot nt plan translation startDate n = Some items ->
  (forall book chapter,
     escapeXML (BuildBibleGatewayURL book chapter translation)
     = "https://www.biblegateway.com/passage/?search="
       ++ escapeXML (encodeURIComponent book) ++ "%20" ++ intToString chapter
       ++ "&amp;version=" ++ escapeXML translation) /\
  (forall i item, nth_error items i = Some item ->
     exists chapter,
       nth_error (selectedCatalog full ot nt plan) i = Some chapter /\
       contains
         ("<link>https://www.biblegateway.com/passage/?search="
          ++ escapeXML (encodeURIComponent (Book chapter)) ++ "%20"
          ++ intToString (Chapter chapter)
          ++ "&amp;version=" ++ escapeXML translation ++ "</link>")
         (generateRSSXML meta items)).
Proof.
  intros Hb.
  assert (L : forall book chapter,
     escapeXML (BuildBibleGatewayURL book chapter translation)
     = "https://www.biblegateway.com/passage/?search="
       ++ escapeXML (encodeURIComponent book) ++ "%20" ++ intToString chapter
       ++ "&amp;version=" ++ escapeXML translation).
  { intros book chapter. unfold BuildBibleGatewayURL, bibleGatewaySlug.
    rewrite !escapeXML_app, intToString_escapeXML. reflexivity. }
  split; [exact L|].
  intros i item Hi.
  assert (Hp : bookListMap full ot nt plan <> InheritedProperty).
  { intros E. unfold BuildRSSFeedItems in Hb. rewrite E in Hb. discriminate. }
  destruct (BuildRSSFeedItems_nth tz now full ot nt plan translation startDate n
              items i item Hp Hb Hi) as (chapter & Hc & Hitem).
  exists chapter. split; [exact Hc|].
  apply (contains_trans _ (itemXML item)).
  - pose proof (proj1 (proj2 (proj2 (itemXML_contains_fields item)))) as H.
    rewrite Hitem in H at 1. unfold processChapter in H at 1. cbn [url] in H.
    rewrite L in H.
    replace ("<link>https://www.biblegateway.com/passage/?search="
             ++ escapeXML (encodeURIComponent (Book chapter)) ++ "%20"
             ++ intToString (Chapter chapter)
             ++ "&amp;version=" ++ escapeXML translation ++ "</link>")
      with ("<link>"
            ++ ("https://www.biblegateway.com/passage/?search="
                ++ escapeXML (encodeURIComponent (Book chapter)) ++ "%20"
                ++ intToString (Chapter chapter)
                ++ "&amp;version=" ++ escapeXML translation) ++ "</link>")
      by (rewrite !append_assoc; reflexivity).
    exact H.
  - apply generateRSSXML_contains_item. exact (nth_error_In _ _ Hi).
Qed.

Lemma rendered_link_witness :
  escapeXML (BuildBibleGatewayURL "1 Samuel" 3 "ESV")
  = "https://www.biblegateway.com/passage/?search="
    ++ escapeXML (encodeURIComponent "1 Samuel") ++ "%20" ++ intToString 3
    ++ "&amp;version=" ++ escapeXML "ESV".
Proof.
  refine (proj1 (rendered_link (fixedTZ 0) sampleNow sampleFull sampleOT sampleNT
                   "ot" "ESV" (Some sampleStart) 1 _
                   (handlerFeedMetadata (fixedTZ 0) sampleNow "ot" "ESV"
                      (Some sampleStart) 1) _) "1 Samuel" 3).
  vm_compute. reflexivity.
Defined.

(* ------------------------------------------------------------------ *)
(** ** A plan started [k] days ago *)

Lemma civil_from_days_valid (z y m d : Z) :
  civil_from_days z = (y, m, d) -> 1 <= m <= 12 /\ 1 <= d <= DaysInMonth y m.
Proof.
  intros E. destruct (days_from_civil_from_days z y m d E) as (Hm & Hd & Hz).
  split; [exact Hm|]. split; [lia|].
  destruct (Z.le_gt_cases d (DaysInMonth y m)) as [H|H]; [exact H|].
  exfalso.
  refine (proj2 (civil_from_days_from_civil y m d Hm Hd) ltac:(lia) y m d _ eq_refl).
  now rewrite Hz.
Qed.

(** The scenarios of the test suite, for every [k]: on a host whose zone
    keeps a constant offset, the start date written as the eight digits of
    the UTC day [k] days before today gives [k] elapsed days and
    [min(k * chaptersPerDay, 1189, catalog length)] items. *)
Theorem plan_started_k_days_ago (off now : Z)
    (full ot nt : list BookChapter) (plan translation : string) (n k y m d : Z) :
  - msPerDay < off < msPerDay ->
  fourDigitYear now ->
  In plan ["nt"; "ot"; "full"]%list -> 1 <= n <= 99 -> 0 <= k ->
  civil_from_days (Day now - k) = (y, m, d) -> 1900 <= y <= 2100 ->
  getDaysBetween (fixedTZ off) now
    (SanitizeDate (fixedTZ off) now (canonicalDate y m d)) = Some k /\
  exists items,
    BuildRSSFeedItems (fixedTZ off) now full ot nt plan translation
      (SanitizeDate (fixedTZ off) now (canonicalDate y m d)) n = Some items /\
    Z.of_nat (List.length items)
    = Z.min (Z.min (k * n) 1189)
        (Z.of_nat (List.length (selectedCatalog full ot nt plan))).
Proof.
  intros Hoff Hnow Hplan Hn Hk E Hy.
  destruct (civil_from_days_valid _ _ _ _ E) as (Hm & Hd).
  assert (Hd31 : 1 <= d <= 31).
  { destruct (days_from_civil_from_days _ _ _ _ E) as (_ & H & _). exact H. }
  pose proof (acceptedDate_canonical y m d Hy Hm Hd31 ltac:(lia)) as A.
  destruct (proj1 (SanitizeDate_accepts_exactly_parts off now Hoff _) y m d A)
    as (Hs & Hrange).
  rewrite Hs.
  assert (Hz : days_from_civil y m d = Day now - k)
    by (destruct (days_from_civil_from_days _ _ _ _ E) as (_ & _ & H); exact H).
  assert (Hlocal : fourDigitYear
                     (LocalTime (fixedTZ off) (days_from_civil y m d * msPerDay - off))).
  { rewrite LocalTime_fixed_midnight. unfold fourDigitYear, msPerDay. lia. }
  destruct (BuildRSSFeedItems_length (fixedTZ off) now full ot nt plan translation
              _ n Hplan Hn Hnow Hlocal)
    as (days & items & Hdays & _ & Hb & Hlen).
  rewrite (getDaysBetween_valid _ _ _ Hnow Hlocal) in Hdays.
  rewrite LocalTime_fixed_midnight, Day_midnight, Hz in Hdays.
  apply Some_inj in Hdays.
  assert (Hdk : days = k) by lia. clear Hdays. subst days.
  split.
  - rewrite (getDaysBetween_valid _ _ _ Hnow Hlocal).
    rewrite LocalTime_fixed_midnight, Day_midnight, Hz. f_equal. lia.
  - exists items. split; [exact Hb|exact Hlen].
Qed.

Lemma plan_started_k_days_ago_witness :
  getDaysBetween (fixedTZ 0) sampleNow
    (SanitizeDate (fixedTZ 0) sampleNow (canonicalDate 2025 12 28)) = Some 5 /\
  exists items,
    BuildRSSFeedItems (fixedTZ 0) sampleNow sampleFull sampleOT sampleNT "full" "NIV"
      (SanitizeDate (fixedTZ 0) sampleNow (canonicalDate 2025 12 28)) 3 = Some items /\
    Z.of_nat (List.length items)
    = Z.min (Z.min (5 * 3) 1189)
        (Z.of_nat (List.length (selectedCatalog sampleFull sampleOT sampleNT "full"))).
Proof.
  apply (plan_started_k_days_ago 0 sampleNow sampleFull sampleOT sampleNT
           "full" "NIV" 3 5 2025 12 28);
    [unfold msPerDay; lia | apply sample_instants_four_digit | simpl; tauto
     | lia | lia | reflexivity | lia].
Defined.

Lemma accepted_date_items_zone_independent_witness :
  BuildRSSFeedItems (fixedTZ 0) sampleNow sampleFull sampleOT sampleNT "ot" "ESV"
    (SanitizeDate (fixedTZ 0) sampleNow "20251231") 1
  = BuildRSSFeedItems (fixedTZ 7200000) sampleNow sampleFull sampleOT sampleNT "ot" "ESV"
      (SanitizeDate (fixedTZ 7200000) sampleNow "20251231") 1.
Proof.
  apply (accepted_date_items_zone_independent 0 7200000 sampleNow
           sampleFull sampleOT sampleNT "ot" "ESV" "20251231" 1);
    [unfold msPerDay; lia | unfold msPerDay; lia | vm_compute; discriminate].
Defined.

(* ------------------------------------------------------------------ *)
(** ** From the request to the counted items *)

(** End to end, on a host whose zone keeps a constant offset: for every
    path of the route, the item counter of the test suite finds in the body
    of the response exactly [min(elapsedDays * chaptersPerDay, 1189, catalog
    length)] items, the values being the sanitized ones. *)
Theorem fetch_item_count (off now : Z)
    (full ot nt : list BookChapter) (registry : list Translation)
    (pathname plan translation startDate chapters : string) :
  - msPerDay < off < msPerDay ->
  fourDigitYear now -> fourDigitYear (LocalTime (fixedTZ off) now) ->
  rssMatch pathname = Some (plan, translation, startDate, chapters) ->
  exists body headers days,
    fetch (fixedTZ off) now full ot nt registry pathname = RssResponse body headers /\
    getDaysBetween (fixedTZ off) now (SanitizeDate (fixedTZ off) now startDate)
    = Some days /\
    Z.of_nat (getRSSItemCount body)
    = Z.min (Z.min (days * SanitizeChapters chapters) 1189)
        (Z.of_nat (List.length (selectedCatalog full ot nt (SanitizePlan plan)))).
Proof.
  intros Hoff Hnow Hlocal Hm.
  destruct (SanitizeDate_four_digit off now startDate Hoff Hlocal) as (start & Hs & Hfd).
  destruct (BuildRSSFeedItems_length (fixedTZ off) now full ot nt (SanitizePlan plan)
              (SanitizeTranslation registry translation) start (SanitizeChapters chapters)
              (SanitizePlan_valid plan) (SanitizeChapters_range chapters) Hnow Hfd)
    as (days & items & Hd & _ & Hb & Hlen).
  eexists _, _, days. split; [|split].
  - unfold fetch. rewrite Hm, Hs, Hb. reflexivity.
  - rewrite Hs. exact Hd.
  - rewrite item_tags_counted. exact Hlen.
Qed.

Lemma fetch_item_count_witness :
  exists body headers days,
    fetch (fixedTZ 0) sampleNow sampleFull sampleOT sampleNT sampleTranslations
      "/rssbible/nt/niv/20251231/1/feed.rss" = RssResponse body headers /\
    getDaysBetween (fixedTZ 0) sampleNow (SanitizeDate (fixedTZ 0) sampleNow "20251231")
    = Some days /\
    Z.of_nat (getRSSItemCount body)
    = Z.min (Z.min (days * SanitizeChapters "1") 1189)
        (Z.of_nat (List.length
           (selectedCatalog sampleFull sampleOT sampleNT (SanitizePlan "nt")))).
Proof.
  apply (fetch_item_count 0 sampleNow sampleFull sampleOT sampleNT sampleTranslations
           "/rssbible/nt/niv/20251231/1/feed.rss" "nt" "niv" "20251231" "1");
    [unfold msPerDay; lia | apply sample_instants_four_digit
     | unfold fourDigitYear; vm_compute; intuition discriminate | reflexivity].
Defined.
